(** * yt-dlp_experiment: a shallow embedding of [main.py]

    The script is orchestration glue around two external programs
    ([yt-dlp] and [ffmpeg]).  Its functions are embedded as computations
    over an explicit world (file system, log, console, standard input and
    the history of child processes); the behaviour of the external
    programs is a parameter of the development. *)

From Stdlib Require Import ZArith Ascii String.
From stdpp Require Import base tactics option list gmap strings pretty.

Local Open Scope Z_scope.

(** ** Python [str] primitives

    A Python [str] is modelled by a Rocq [string]; a character stands for
    a code point below 256. *)
Module Py.

Definition LF : ascii := "010"%char.
Definition CR : ascii := "013"%char.

Definition is_LF (a : ascii) : bool := Ascii.eqb a LF.

(** [len(s)] *)
Definition len (s : string) : Z := Z.of_nat (String.length s).

Fixpoint take (n : nat) (s : string) : string :=
  match n, s with
  | S n', String a s' => String a (take n' s')
  | _, _ => ""
  end.

Fixpoint drop (n : nat) (s : string) : string :=
  match n, s with
  | S n', String _ s' => drop n' s'
  | _, _ => s
  end.

(** Slice bounds as Python clamps them: a negative bound counts from the
    end, and every bound is brought into [0 .. len s]. *)
Definition clamp (i : Z) (s : string) : nat :=
  Z.to_nat (if i <? 0 then Z.max 0 (len s + i) else Z.min i (len s)).

(** [s[:i]] *)
Definition slice_to (i : Z) (s : string) : string := take (clamp i s) s.

(** [s[i:]] *)
Definition slice_from (i : Z) (s : string) : string := drop (clamp i s) s.

(** [s[i:j]] *)
Definition slice (i j : Z) (s : string) : string :=
  take (clamp j s - clamp i s) (drop (clamp i s) s).

(** [s.rfind(c)] for a one-character needle: the highest index at which
    [c] occurs, or [-1]. *)
Fixpoint rfind (c : ascii) (s : string) : Z :=
  match s with
  | "" => -1
  | String a s' =>
      let r := rfind c s' in
      if 0 <=? r then r + 1 else if Ascii.eqb a c then 0 else -1
  end.

(** [s.startswith(p)] *)
Definition startswith (p s : string) : bool := String.prefix p s.

(** [s.endswith(p)] *)
Definition endswith (p s : string) : bool :=
  (String.length p <=? String.length s)%nat
  && String.eqb (drop (String.length s - String.length p) s) p.

(** [str.isspace] on one code point below 256. *)
Definition isspace (a : ascii) : bool :=
  let n := N_of_ascii a in
  ((9 <=? n) && (n <=? 13) || (28 <=? n) && (n <=? 32)
   || (n =? 133) || (n =? 160))%N.

Fixpoint lstrip_by (f : ascii -> bool) (s : string) : string :=
  match s with
  | "" => ""
  | String a s' => if f a then lstrip_by f s' else s
  end.

Fixpoint rstrip_by (f : ascii -> bool) (s : string) : string :=
  match s with
  | "" => ""
  | String a s' =>
      match rstrip_by f s' with
      | "" => if f a then "" else String a ""
      | r => String a r
      end
  end.

(** [s.strip()] *)
Definition strip (s : string) : string := rstrip_by isspace (lstrip_by isspace s).

(** [s.rstrip(c)] for a one-character set. *)
Definition rstrip_char (c : ascii) (s : string) : string :=
  rstrip_by (fun a => Ascii.eqb a c) s.

(** [c.lower()] on one code point below 256: the ASCII capitals and the
    Latin-1 capitals (0xC0-0xDE without the multiplication sign). *)
Definition lower_char (a : ascii) : ascii :=
  let n := N_of_ascii a in
  if ((65 <=? n) && (n <=? 90)
      || (192 <=? n) && (n <=? 222) && negb (n =? 215))%N
  then ascii_of_N (n + 32) else a.

(** [s.lower()] *)
Fixpoint lower (s : string) : string :=
  match s with
  | "" => ""
  | String a s' => String (lower_char a) (lower s')
  end.

(** [c * n] for a one-character string [c]. *)
Fixpoint replicate_char (n : nat) (c : ascii) : string :=
  match n with
  | O => ""
  | S n' => String c (replicate_char n' c)
  end.

(** Text-mode reading translates the line endings CR LF and CR to LF. *)
Fixpoint universal_newlines (s : string) : string :=
  match s with
  | "" => ""
  | String a s' =>
      if Ascii.eqb a CR then
        match s' with
        | String b s'' =>
            if Ascii.eqb b LF then String LF (universal_newlines s'')
            else String LF (universal_newlines s')
        | "" => String LF ""
        end
      else String a (universal_newlines s')
  end.

(** Iterating over a text file yields its lines, each with its ending. *)
Fixpoint readlines (s : string) : list string :=
  match s with
  | "" => []
  | String a s' =>
      if is_LF a then String a "" :: readlines s'
      else match readlines s' with
           | [] => [String a ""]
           | l :: ls => String a l :: ls
           end
  end.

(** [sep.join(l)] *)
Definition join (sep : string) (l : list string) : string := String.concat sep l.

End Py.

(** ** [os.path] (posixpath) *)
Module Path.

Definition sep : ascii := "/"%char.
Definition extsep : ascii := "."%char.

(** [os.path.join(a, b)] *)
Definition join (a b : string) : string :=
  if Py.startswith "/" b then b
  else if String.eqb a "" || Py.endswith "/" a then a +:+ b
  else a +:+ "/" +:+ b.

(** The loop of [genericpath._splitext] that skips the leading dots of
    the file name: it looks at the [n] positions before [dotIndex] and
    answers whether one of them holds something else than a dot. *)
Fixpoint name_before_dot (p : string) (dotIndex : Z) (n : nat) : bool :=
  match n with
  | O => false
  | S n' =>
      let filenameIndex := dotIndex - Z.of_nat n in
      if negb (String.eqb (Py.slice filenameIndex (filenameIndex + 1) p)
                 (String extsep ""))
      then true
      else name_before_dot p dotIndex n'
  end.

(** [os.path.splitext(p)] *)
Definition splitext (p : string) : string * string :=
  let sepIndex := Py.rfind sep p in
  let dotIndex := Py.rfind extsep p in
  if sepIndex <? dotIndex then
    if name_before_dot p dotIndex (Z.to_nat (dotIndex - (sepIndex + 1)))
    then (Py.slice_to dotIndex p, Py.slice_from dotIndex p)
    else (p, Py.slice_to 0 p)
  else (p, Py.slice_to 0 p).

(** [os.path.dirname(p)] *)
Definition dirname (p : string) : string :=
  let i := Py.rfind sep p + 1 in
  let head := Py.slice_to i p in
  if negb (String.eqb head "")
     && negb (String.eqb head (Py.replicate_char (String.length head) sep))
  then Py.rstrip_char sep head
  else head.

End Path.

(** ** Exceptions

    The classes the script can meet, with Python's subclass relation:
    the [OSError] family is split by its errno class, and [SystemExit]
    derives from [BaseException], not from [Exception]. *)
Inductive os_error :=
  | FileNotFound | FileExists | IsADirectory | NotADirectory
  | PermissionDenied | OtherOSError.

Inductive exn :=
  | CalledProcessError (cmd : list string) (returncode : Z)
  | OSError (k : os_error) (filename : string)
  | SystemExit (code : Z).

Definition is_CalledProcessError (e : exn) : bool :=
  match e with CalledProcessError _ _ => true | _ => false end.

Definition is_OSError (e : exn) : bool :=
  match e with OSError _ _ => true | _ => false end.

Definition is_FileNotFoundError (e : exn) : bool :=
  match e with OSError FileNotFound _ => true | _ => false end.

(** [isinstance(e, Exception)] *)
Definition is_Exception (e : exn) : bool :=
  match e with SystemExit _ => false | _ => true end.

Definition strerror (k : os_error) : string :=
  match k with
  | FileNotFound => "[Errno 2] No such file or directory"
  | FileExists => "[Errno 17] File exists"
  | IsADirectory => "[Errno 21] Is a directory"
  | NotADirectory => "[Errno 20] Not a directory"
  | PermissionDenied => "[Errno 13] Permission denied"
  | OtherOSError => "[Errno 22] Invalid argument"
  end.

Definition quote (s : string) : string := "'" +:+ s +:+ "'".

(** [str(e)], up to the exact wording the operating system chooses. *)
Definition str_exn (e : exn) : string :=
  match e with
  | CalledProcessError cmd rc =>
      "Command '[" +:+ Py.join ", " (quote <$> cmd)
        +:+ "]' returned non-zero exit status " +:+ pretty rc +:+ "."
  | OSError k f => strerror k +:+ ": " +:+ quote f
  | SystemExit c => pretty c
  end.

(** ** The world *)
Inductive node :=
  | File (content : string)
  | Dir.

Inductive level := INFO | WARNING | ERROR.

(** A [subprocess.CompletedProcess]. *)
Record CompletedProcess := {
  returncode : Z;
  stdout : string;
  stderr : string;
}.

(** Files and directories are keyed by their absolute, normalised list of
    components; the root is the empty list and always a directory. *)
Record World := {
  fs : gmap (list string) node;
  cwd : list string;
  log : list (level * string);
  console : list string;
  stdin : list string;
  spawned : list (list string);
}.

(** What starting a child process can do: the executable is not found, or
    the child runs, leaves the file system in some state and exits. *)
Inductive proc_result :=
  | NotFound
  | Exited (result : CompletedProcess) (fs' : gmap (list string) node).

(** Updates of one field of the world. *)
Definition set_fs (m : gmap (list string) node) (w : World) : World :=
  {| fs := m; cwd := cwd w; log := log w; console := console w;
     stdin := stdin w; spawned := spawned w |}.

Definition add_log (l : level) (s : string) (w : World) : World :=
  {| fs := fs w; cwd := cwd w; log := log w ++ [(l, s)]; console := console w;
     stdin := stdin w; spawned := spawned w |}.

Definition add_console (s : string) (w : World) : World :=
  {| fs := fs w; cwd := cwd w; log := log w; console := console w ++ [s];
     stdin := stdin w; spawned := spawned w |}.

Definition set_stdin (ls : list string) (w : World) : World :=
  {| fs := fs w; cwd := cwd w; log := log w; console := console w;
     stdin := ls; spawned := spawned w |}.

Definition add_spawned (cmd : list string) (w : World) : World :=
  {| fs := fs w; cwd := cwd w; log := log w; console := console w;
     stdin := stdin w; spawned := spawned w ++ [cmd] |}.

(** ** Computations: state and exceptions *)
Inductive outcome (A : Type) :=
  | Ret (a : A)
  | Raise (e : exn).
Arguments Ret {A} a.
Arguments Raise {A} e.

Definition M (A : Type) : Type := World -> outcome A * World.

Definition ret {A} (a : A) : M A := fun w => (Ret a, w).

Definition raise {A} (e : exn) : M A := fun w => (Raise e, w).

Definition bind {A B} (m : M A) (k : A -> M B) : M B :=
  fun w =>
    match m w with
    | (Ret a, w') => k a w'
    | (Raise e, w') => (Raise e, w')
    end.

Notation "x <- m ;; k" := (bind m (fun x => k))
  (at level 100, m at next level, right associativity).
Notation "m ;; k" := (bind m (fun _ => k))
  (at level 100, right associativity).

(** [try: body  except ...: handler]: the handler chooses, by the class of
    the exception, the clause that runs; [None] lets it propagate. *)
Definition try_except {A} (body : M A) (handler : exn -> option (M A)) : M A :=
  fun w =>
    match body w with
    | (Ret a, w') => (Ret a, w')
    | (Raise e, w') =>
        match handler e with
        | Some h => h w'
        | None => (Raise e, w')
        end
    end.

(** [for x in l: body x] *)
Fixpoint for_each {A} (l : list A) (body : A -> M unit) : M unit :=
  match l with
  | [] => ret tt
  | x :: l' => body x ;; for_each l' body
  end.

(** [sys.exit(code)] *)
Definition sys_exit {A} (code : Z) : M A := raise (SystemExit code).

(** [print(s)] *)
Definition print (s : string) : M unit :=
  fun w => (Ret tt, add_console s w).

(** [logging.info], [logging.warning], [logging.error] *)
Definition logging (l : level) (s : string) : M unit :=
  fun w => (Ret tt, add_log l s w).

(** [sys.stdin.readline()]: the next line with its ending, [""] at the
    end of the input. *)
Definition readline : M string :=
  fun w =>
    match stdin w with
    | [] => (Ret "", w)
    | l :: ls => (Ret l, set_stdin ls w)
    end.

(** The exit status the interpreter hands to the operating system. *)
Definition exit_status {A} (o : outcome A) : Z :=
  match o with
  | Ret _ => 0
  | Raise (SystemExit c) => c
  | Raise _ => 1
  end.

(** ** The pattern of the destination announcement

    [re.search(r"\[download\] Destination: (.+)", s)]: the literal text,
    then one or more characters other than a line feed, taken greedily;
    the search tries every start position from the left. *)
Module Re.

Definition DESTINATION : string := "[download] Destination: ".

(** Matching a literal at the current position leaves the rest of the
    subject. *)
Fixpoint match_literal (lit s : string) : option string :=
  match lit with
  | "" => Some s
  | String c lit' =>
      match s with
      | "" => None
      | String a s' => if Ascii.eqb a c then match_literal lit' s' else None
      end
  end.

(** The greedy [.+] at the end of the pattern takes every character up
    to the next line feed; nothing follows it, so it never gives back. *)
Fixpoint dot_run (s : string) : string :=
  match s with
  | "" => ""
  | String a s' => if Py.is_LF a then "" else String a (dot_run s')
  end.

(** The pattern tried at the current position: group 1 of the match. *)
Definition match_here (s : string) : option string :=
  match match_literal DESTINATION s with
  | Some rest =>
      match dot_run rest with
      | "" => None
      | g => Some g
      end
  | None => None
  end.

(** [re.search(pattern, s)], answering group 1 of the leftmost match. *)
Fixpoint search (s : string) : option string :=
  match match_here s with
  | Some g => Some g
  | None =>
      match s with
      | "" => None
      | String _ s' => search s'
      end
  end.

End Re.

(** ** The operating system: paths, files, directories *)
Module Os.

(** [s.split(c)] for a one-character separator. *)
Fixpoint split_on (c : ascii) (s : string) : list string :=
  match s with
  | "" => [""]
  | String a s' =>
      if Ascii.eqb a c then "" :: split_on c s'
      else match split_on c s' with
           | [] => [String a ""]
           | l :: ls => String a l :: ls
           end
  end.

(** One step of path resolution: empty components and [.] stay in place,
    [..] goes up, a name goes down.  There are no symbolic links, and
    [..] is taken lexically, as [os.path.abspath] does. *)
Definition step (acc : list string) (c : string) : list string :=
  if String.eqb c "" || String.eqb c "." then acc
  else if String.eqb c ".." then removelast acc
  else acc ++ [c].

(** The key of a path: absolute paths start at the root, the others at
    the working directory. *)
Definition resolve (w : World) (p : string) : list string :=
  fold_left step (split_on Path.sep p)
    (if Py.startswith "/" p then [] else cwd w).

Definition lookup_node (m : gmap (list string) node) (k : list string)
  : option node :=
  match k with
  | [] => Some Dir
  | _ => m !! k
  end.

Definition is_file (o : option node) : bool :=
  match o with Some (File _) => true | _ => false end.

(** The error of a lookup that finds nothing: a regular file on the way
    makes it [ENOTDIR], otherwise it is [ENOENT]. *)
Definition missing_error (m : gmap (list string) node) (k : list string)
  : os_error :=
  if existsb (fun n => is_file (lookup_node m (firstn n k))) (seq 0 (length k))
  then NotADirectory else FileNotFound.

Fixpoint strip_prefix (pre k : list string) : option (list string) :=
  match pre, k with
  | [], _ => Some k
  | a :: pre', b :: k' => if String.eqb a b then strip_prefix pre' k' else None
  | _ :: _, [] => None
  end.

Definition inside (dir k : list string) : bool :=
  match strip_prefix dir k with
  | Some (_ :: _) => true
  | _ => false
  end.

Definition has_children (m : gmap (list string) node) (k : list string) : bool :=
  existsb (fun kv => inside k kv.1) (map_to_list m).

Definition rekey (src dst k : list string) : list string :=
  match strip_prefix src k with
  | Some suffix => dst ++ suffix
  | None => k
  end.

(** Moving a directory moves everything below it. *)
Definition move_subtree (src dst : list string) (m : gmap (list string) node)
  : gmap (list string) node :=
  list_to_map (prod_map (rekey src dst) id <$> map_to_list m).

(** [os.path.exists(p)] *)
Definition path_exists (p : string) : M bool :=
  fun w =>
    (Ret (negb (String.eqb p "")
          && bool_decide (is_Some (lookup_node (fs w) (resolve w p)))), w).

(** Creating the directories [pre/c1], [pre/c1/c2], ... that are missing:
    what [os.makedirs(name, exist_ok=True)] leaves behind.  A regular
    file in the way is [FileExistsError] at the leaf and
    [NotADirectoryError] above it. *)
Fixpoint makedirs_from (name : string) (pre rest : list string)
    (m : gmap (list string) node) : outcome unit * gmap (list string) node :=
  match rest with
  | [] => (Ret tt, m)
  | c :: rest' =>
      let k := pre ++ [c] in
      match m !! k with
      | None => makedirs_from name k rest' (<[k := Dir]> m)
      | Some Dir => makedirs_from name k rest' m
      | Some (File _) =>
          (Raise (OSError (match rest' with
                           | [] => FileExists
                           | _ => NotADirectory
                           end) name), m)
      end
  end.

(** [os.makedirs(name, exist_ok=True)] *)
Definition makedirs (name : string) : M unit :=
  fun w =>
    if String.eqb name "" then (Raise (OSError FileNotFound name), w)
    else
      let (o, m) := makedirs_from name [] (resolve w name) (fs w) in
      (o, set_fs m w).

(** [os.replace(src, dst)], that is [rename(2)]. *)
Definition replace (src dst : string) : M unit :=
  fun w =>
    let m := fs w in
    let ks := resolve w src in
    let kd := resolve w dst in
    if String.eqb src "" || String.eqb dst ""
    then (Raise (OSError FileNotFound src), w)
    else
      match lookup_node m ks with
      | None => (Raise (OSError (missing_error m ks) src), w)
      | Some n =>
          match lookup_node m (removelast kd) with
          | None => (Raise (OSError (missing_error m kd) src), w)
          | Some (File _) => (Raise (OSError NotADirectory src), w)
          | Some Dir =>
              if bool_decide (ks = kd) then (Ret tt, w)
              else
                match n, lookup_node m kd with
                | File _, Some Dir => (Raise (OSError IsADirectory src), w)
                | File c, _ => (Ret tt, set_fs (<[kd := File c]> (delete ks m)) w)
                | Dir, Some (File _) => (Raise (OSError NotADirectory src), w)
                | Dir, _ =>
                    if bool_decide (ks = []) || inside ks kd
                       || has_children m kd
                    then (Raise (OSError OtherOSError src), w)
                    else (Ret tt, set_fs (move_subtree ks kd m) w)
                end
          end
      end.

(** [open(p, "r")] and iteration over the file: the lines of the text.
    A file holds text; a file whose bytes do not decode, and a path that
    holds a NUL character, are not part of this model. *)
Definition read_lines (p : string) : M (list string) :=
  fun w =>
    if String.eqb p "" then (Raise (OSError FileNotFound p), w)
    else
      match lookup_node (fs w) (resolve w p) with
      | None => (Raise (OSError (missing_error (fs w) (resolve w p)) p), w)
      | Some Dir => (Raise (OSError IsADirectory p), w)
      | Some (File c) => (Ret (Py.readlines (Py.universal_newlines c)), w)
      end.

End Os.

(** ** The script *)
Section Script.

(** The external programs: what starting [argv] does in a given world. *)
Variable spawn : World -> list string -> proc_result.

(** The directory of the script, [os.path.dirname(os.path.abspath(__file__))]. *)
Variable script_directory : string.

(** [subprocess.run(cmd, stdout=PIPE, stderr=PIPE, check=check, text=True)].
    The start of the child either fails because the executable is not
    found, or the child runs to its end; the other failures of the start
    (a file that may not be executed, an argument that holds a NUL
    character) are not part of this model, so what is stated about
    exceptions is stated class by class and not as a list of all that can
    happen. *)
Definition subprocess_run (cmd : list string) (check : bool)
  : M CompletedProcess :=
  fun w =>
    let started := add_spawned cmd w in
    match spawn w cmd with
    | NotFound => (Raise (OSError FileNotFound (hd "" cmd)), started)
    | Exited result m =>
        if check && negb (returncode result =? 0)
        then (Raise (CalledProcessError cmd (returncode result)),
              set_fs m started)
        else (Ret result, set_fs m started)
    end.

Definition check_ffmpeg : M bool :=
  try_except
    (subprocess_run ["ffmpeg"; "-version"] true ;;
     ret true)
    (fun e => if is_CalledProcessError e then Some (ret false) else None).

Definition create_output_directory (output_directory : string) : M unit :=
  try_except
    (Os.makedirs output_directory)
    (fun e =>
       if is_OSError e
       then Some (print ("Error creating output directory: " +:+ str_exn e) ;;
                  sys_exit 1)
       else None).

Definition stripped_path (file_path : string) : string :=
  file_path +:+ "_stripped" +:+ (Path.splitext file_path).2.

Definition strip_cmd (file_path : string) : list string :=
  [ "ffmpeg"; "-hide_banner"; "-i"; file_path; "-map_metadata"; "-1";
    "-c:v"; "copy"; "-c:a"; "copy"; "-y"; stripped_path file_path ].

Definition strip_metadata (file_path : string) : M unit :=
  try_except
    (let stripped_file_path := stripped_path file_path in
     let cmd := strip_cmd file_path in
     result <- subprocess_run cmd false ;;
     if returncode result =? 0 then
       Os.replace stripped_file_path file_path ;;
       logging INFO ("Metadata successfully stripped for: " +:+ file_path)
     else
       logging WARNING
         ("FFmpeg encountered a non-critical issue while stripping metadata: "
          +:+ stderr result) ;;
       present <- Os.path_exists stripped_file_path ;;
       if present then Os.replace stripped_file_path file_path
       else ret tt)
    (fun e =>
       if is_FileNotFoundError e
       then Some (logging ERROR
                    ("File not found for metadata stripping: " +:+ file_path))
       else if is_Exception e
       then Some (logging ERROR ("Error stripping metadata: " +:+ str_exn e))
       else None).

Definition output_directory_of (base_output_directory : string)
    (audio_only : bool) : string :=
  Path.join base_output_directory (if audio_only then "Audio" else "Video").

Definition download_cmd (url output_directory : string) (audio_only : bool)
  : list string :=
  [ "yt-dlp"; "-f";
    if audio_only then "bestaudio" else "bestvideo+bestaudio/best";
    "--output"; Path.join output_directory "%(title)s.%(ext)s";
    "--restrict-filenames"; "--no-mtime"; "--no-embed-metadata";
    "--no-progress"; url ]
  ++ (if audio_only then ["--extract-audio"; "--audio-format"; "mp3"]
      else ["--merge-output-format"; "mp4"]).

Definition download_youtube_media (url base_output_directory : string)
    (audio_only : bool) : M unit :=
  try_except
    (let output_directory :=
       output_directory_of base_output_directory audio_only in
     create_output_directory output_directory ;;
     logging INFO ("Downloading started for URL: " +:+ url +:+ " to "
                   +:+ output_directory) ;;
     let cmd := download_cmd url output_directory audio_only in
     result <- subprocess_run cmd true ;;
     logging INFO ("yt-dlp stdout: " +:+ stdout result) ;;
     logging INFO ("yt-dlp stderr: " +:+ stderr result) ;;
     match Re.search (stdout result) with
     | Some final_file_path =>
         logging INFO ("Download completed successfully: "
                       +:+ final_file_path) ;;
         strip_metadata final_file_path ;;
         print ("Media downloaded and metadata stripped successfully for URL: "
                +:+ url)
     | None =>
         print ("Failed to locate the final file for URL: " +:+ url
                +:+ ". Check log for details.") ;;
         logging WARNING
           ("Could not locate final file in yt-dlp output for URL: " +:+ url)
     end)
    (fun e =>
       if is_CalledProcessError e
       then Some (logging ERROR ("An error occurred while downloading: "
                                 +:+ str_exn e) ;;
                  print ("Error: Failed to download URL: " +:+ url
                         +:+ ". Check the log for more details."))
       else None).

Definition process_input (input_str : string) : M (list string) :=
  if Py.startswith "http" input_str then
    ret [input_str]
  else if Py.endswith ".txt" (Py.lower input_str) then
    file <- Os.read_lines input_str ;;
    let urls :=
      Py.strip <$> filter (fun line => Py.strip line ≠ "") file in
    match urls with
    | [] =>
        print "Error: The .txt file does not contain valid URLs." ;;
        sys_exit 1
    | _ => ret urls
    end
  else
    print "Error: Unknown input format." ;;
    sys_exit 1.

(** The loop at the end of the script. *)
Definition download_all (urls_to_process : list string)
    (output_directory : string) (audio_only : bool) : M unit :=
  for_each urls_to_process
    (fun url => download_youtube_media url output_directory audio_only).

(** The [if __name__ == "__main__":] block. *)
Definition main : M unit :=
  installed <- check_ffmpeg ;;
  (if negb installed
   then print "Error: FFmpeg not installed." ;; sys_exit 1
   else ret tt) ;;
  print "YouTube Media Downloader using yt-dlp" ;;
  print "Provide a single URL, or a .txt file containing a list of URLs. Example: `url_list.txt`" ;;
  print "Enter the video URL or path to a .txt file:" ;;
  line <- readline ;;
  let user_input := Py.strip line in
  urls_to_process <- process_input user_input ;;
  print "Do you want to download the full (V)ideo or (A)udio only? (V/A):" ;;
  line <- readline ;;
  let media_choice_input := Py.lower (Py.strip line) in
  audio_only <-
    (if String.eqb media_choice_input "a" then ret true
     else if String.eqb media_choice_input "v" then ret false
     else print "Invalid choice. Please enter 'V' for video or 'A' for audio." ;;
          sys_exit 1) ;;
  let output_directory := Path.join script_directory "YouTube_downloads" in
  download_all urls_to_process output_directory audio_only.

End Script.

(** ** Notions used to state the properties *)

(** *** Lines and destination announcements *)

(** A line is a text without a line feed. *)
Fixpoint has_LF (s : string) : bool :=
  match s with
  | "" => false
  | String a s' => Py.is_LF a || has_LF s'
  end.

(** The text whose lines are [ls]. *)
Definition unlines (ls : list string) : string := Py.join (String Py.LF "") ls.




(** *** Messages and intermediate steps *)
Definition strip_error_message (file_path : string) (e : exn) : string :=
  if is_FileNotFoundError e
  then "File not found for metadata stripping: " +:+ file_path
  else "Error stripping metadata: " +:+ str_exn e.

(** The replacement step of [strip_metadata] seen from outside the [try]:
    [os.replace], then what follows it; an error of [os.replace] ends in
    the log. *)
Definition replace_step (file_path : string) (next : M unit) (w : World)
  : outcome unit * World :=
  match Os.replace (stripped_path file_path) file_path w with
  | (Ret _, w') => next w'
  | (Raise e, w') => (Ret tt, add_log ERROR (strip_error_message file_path e) w')
  end.

Definition warning_message (result : CompletedProcess) : string :=
  "FFmpeg encountered a non-critical issue while stripping metadata: "
  +:+ stderr result.

Definition started_message (url output_directory : string) : string :=
  "Downloading started for URL: " +:+ url +:+ " to " +:+ output_directory.
Definition completed_message (final_file_path : string) : string :=
  "Download completed successfully: " +:+ final_file_path.
Definition success_message (url : string) : string :=
  "Media downloaded and metadata stripped successfully for URL: " +:+ url.
Definition not_located_message (url : string) : string :=
  "Failed to locate the final file for URL: " +:+ url +:+ ". Check log for details.".
Definition not_located_warning (url : string) : string :=
  "Could not locate final file in yt-dlp output for URL: " +:+ url.
Definition download_error_message (e : exn) : string :=
  "An error occurred while downloading: " +:+ str_exn e.
Definition download_failed_message (url : string) : string :=
  "Error: Failed to download URL: " +:+ url +:+ ". Check the log for more details.".
Definition stripped_message (file_path : string) : string :=
  "Metadata successfully stripped for: " +:+ file_path.

(** The first half of [download_youtube_media]: the directory, the child
    process and the three log entries, up to the search for the
    destination. *)
Definition fetch (spawn : World → list string → proc_result)
    (url output_directory : string) (audio_only : bool) : M CompletedProcess :=
  create_output_directory output_directory ;;
  logging INFO (started_message url output_directory) ;;
  result <- subprocess_run spawn
              (download_cmd url output_directory audio_only) true ;;
  logging INFO ("yt-dlp stdout: " +:+ stdout result) ;;
  logging INFO ("yt-dlp stderr: " +:+ stderr result) ;;
  ret result.

(** *** Blank lines and trimming; the steps of [main] *)

(** A blank line holds whitespace only. *)
Fixpoint all_space (s : string) : bool :=
  match s with
  | "" => true
  | String a s' => Py.isspace a && all_space s'
  end.

Definition starts_with_space (s : string) : bool :=
  match s with
  | "" => false
  | String a _ => Py.isspace a
  end.

Fixpoint ends_with_space (s : string) : bool :=
  match s with
  | "" => false
  | String a "" => Py.isspace a
  | String _ s' => ends_with_space s'
  end.

(** [t] is [line] without its surrounding whitespace. *)
Definition trimmed_of (line t : string) : Prop :=
  ∃ pre post, line = pre +:+ t +:+ post
              ∧ all_space pre = true ∧ all_space post = true
              ∧ starts_with_space t = false ∧ ends_with_space t = false.

Definition empty_list_message : string :=
  "Error: The .txt file does not contain valid URLs.".

Definition version_cmd : list string := ["ffmpeg"; "-version"].

Definition prompt_lines : list string :=
  [ "YouTube Media Downloader using yt-dlp";
    "Provide a single URL, or a .txt file containing a list of URLs. Example: `url_list.txt`";
    "Enter the video URL or path to a .txt file:" ].

(** What [main] does from its first prompt on. *)
Definition main_from_prompt (spawn : World → list string → proc_result)
    (script_directory : string) : M unit :=
  print "YouTube Media Downloader using yt-dlp" ;;
  print "Provide a single URL, or a .txt file containing a list of URLs. Example: `url_list.txt`" ;;
  print "Enter the video URL or path to a .txt file:" ;;
  line <- readline ;;
  let user_input := Py.strip line in
  urls_to_process <- process_input user_input ;;
  print "Do you want to download the full (V)ideo or (A)udio only? (V/A):" ;;
  line <- readline ;;
  let media_choice_input := Py.lower (Py.strip line) in
  audio_only <-
    (if String.eqb media_choice_input "a" then ret true
     else if String.eqb media_choice_input "v" then ret false
     else print "Invalid choice. Please enter 'V' for video or 'A' for audio." ;;
          sys_exit 1) ;;
  let output_directory := Path.join script_directory "YouTube_downloads" in
  download_all spawn urls_to_process output_directory audio_only.

(** Stripping fails when the media processor cannot be started, exits
    with a non-zero status, or leaves a file that cannot be moved. *)
Definition strip_failed (spawn : World → list string → proc_result)
    (file_path : string) (w : World) : Prop :=
  match spawn w (strip_cmd file_path) with
  | NotFound => True
  | Exited result m =>
      returncode result ≠ 0
      ∨ ∃ e, (Os.replace (stripped_path file_path) file_path
                (set_fs m (add_spawned (strip_cmd file_path) w))).1 = Raise e
  end.

(** A failure is shown to the user when the console gets a line other
    than the announcement of success. *)
Definition failure_shown (url : string) (w w' : World) : Prop :=
  ∃ line, line ∈ drop (length (console w)) (console w')
          ∧ line ≠ success_message url.

(** *** The dialogue of [main], process histories and console reports *)
Definition unknown_format_message : string := "Error: Unknown input format.".
Definition invalid_choice_message : string :=
  "Invalid choice. Please enter 'V' for video or 'A' for audio.".
Definition choice_prompt : string :=
  "Do you want to download the full (V)ideo or (A)udio only? (V/A):".

(** The answers to the two prompts, as [main] reads them: a line that is
    not there reads as the empty string. *)
Definition user_input_of (w : World) : string := Py.strip (hd "" (stdin w)).
Definition media_choice_of (w : World) : string :=
  Py.lower (Py.strip (hd "" (tl (stdin w)))).

(** The world in which [main] resolves the input: the version query has
    run and left the files [m], the three prompt lines are on the console
    and the first line of the input is consumed. *)
Definition prompted (m : gmap (list string) node) (w : World) : World :=
  set_stdin (tl (stdin w))
    (add_console "Enter the video URL or path to a .txt file:"
       (add_console "Provide a single URL, or a .txt file containing a list of URLs. Example: `url_list.txt`"
          (add_console "YouTube Media Downloader using yt-dlp"
             (set_fs m (add_spawned version_cmd w))))).

(** The world in which the downloads start: the second prompt is on the
    console and the second line of the input is consumed. *)
Definition chosen (m : gmap (list string) node) (w : World) : World :=
  set_stdin (tl (tl (stdin w))) (add_console choice_prompt (prompted m w)).

(** The runs of the downloader in a history of child processes. *)
Definition downloads (history : list (list string)) : list (list string) :=
  filter (λ argv, hd "" argv = "yt-dlp") history.

Definition directory_error_message (e : exn) : string :=
  "Error creating output directory: " +:+ str_exn e.

(** The line that [download_youtube_media] prints for a URL when it
    returns. *)
Definition report_of (url line : string) : Prop :=
  line = success_message url ∨ line = not_located_message url
  ∨ line = download_failed_message url.

(** The text is at the end of a line: nothing is left, or a line feed
    comes next. *)
Definition line_end (t : string) : bool :=
  match t with
  | "" => true
  | String a _ => Py.is_LF a
  end.

(** ** Scenarios

    Concrete machines and worlds on which the properties are exercised. *)
Definition line (s : string) : string := s +:+ String Py.LF "".

Definition completed (rc : Z) (out err : string) : CompletedProcess :=
  {| returncode := rc; stdout := out; stderr := err |}.

Definition video_file (url : string) : string :=
  "/app/YouTube_downloads/Video/" +:+ Py.slice_from (-1) url +:+ ".mp4".

(** A downloader that serves every URL but [bad_url]. *)
Definition run_yt_dlp (bad_url : string) (w : World) (argv : list string)
  : proc_result :=
  let url := nth 9 argv "" in
  if String.eqb url bad_url
  then Exited (completed 1 "" "ERROR: unable to download video data") (fs w)
  else Exited
         (completed 0
            (unlines [ "[youtube] Extracting URL: " +:+ url;
                       "[download] Destination: " +:+ video_file url;
                       "[download] 100% of 1.00MiB" ]) "")
         (<[Os.resolve w (video_file url) := File ("media of " +:+ url)]> (fs w)).

(** A media processor that answers the version query and, on a strip
    run, exits with [rc]; [writes] says whether it leaves its output. *)
Definition run_ffmpeg (rc : Z) (writes : bool) (w : World) (argv : list string)
  : proc_result :=
  match argv with
  | ["ffmpeg"; "-version"] => Exited (completed 0 "ffmpeg version 6.0" "") (fs w)
  | _ =>
      let input := nth 3 argv "" in
      let output := nth 11 argv "" in
      match Os.lookup_node (fs w) (Os.resolve w input) with
      | Some (File c) =>
          Exited (completed rc "" (if rc =? 0 then "" else "Conversion failed!"))
            (if writes
             then <[Os.resolve w output := File ("stripped " +:+ c)]> (fs w)
             else fs w)
      | _ => Exited (completed 1 "" (input +:+ ": No such file or directory"))
               (fs w)
      end
  end.

Definition machine (bad_url : string) (rc : Z) (writes : bool)
    (w : World) (argv : list string) : proc_result :=
  match argv with
  | "ffmpeg" :: _ => run_ffmpeg rc writes w argv
  | "yt-dlp" :: _ => run_yt_dlp bad_url w argv
  | _ => NotFound
  end.

(** Only the media processor is installed. *)
Definition no_downloader (w : World) (argv : list string) : proc_result :=
  match argv with
  | "ffmpeg" :: _ => run_ffmpeg 0 true w argv
  | _ => NotFound
  end.

(** Nothing is installed. *)
Definition no_tools (w : World) (argv : list string) : proc_result := NotFound.

Definition url_list : string :=
  "  https://x/1 " +:+ String Py.LF "" +:+ String Py.LF ""
  +:+ String "009" "https://x/2" +:+ String Py.CR (String Py.LF "")
  +:+ "https://x/3".

(** The script lives in [/app], next to a list of three URLs. *)
Definition home (input : list string) : World :=
  {| fs := {[ ["app"] := Dir; ["app"; "urls.txt"] := File url_list;
              ["app"; "blank.txt"] := File (String Py.LF "  " +:+ String Py.LF "") ]};
     cwd := ["app"]; log := []; console := []; stdin := input; spawned := [] |}.

(** A media processor that is installed but cannot run. *)
Definition broken_ffmpeg (w : World) (argv : list string) : proc_result :=
  match argv with
  | "ffmpeg" :: _ =>
      Exited (completed 127 "" "ffmpeg: error while loading shared libraries")
        (fs w)
  | _ => NotFound
  end.

(** The world after a download of [https://x/1]. *)
Definition with_video : World :=
  {| fs := {[ ["app"] := Dir; ["app"; "YouTube_downloads"] := Dir;
              ["app"; "YouTube_downloads"; "Video"] := Dir;
              ["app"; "YouTube_downloads"; "Video"; "1.mp4"] := File "media" ]};
     cwd := ["app"]; log := []; console := []; stdin := []; spawned := [] |}.

(** A world in which a regular file stands where the download directory
    should be. *)
Definition blocked : World :=
  {| fs := {[ ["app"] := Dir; ["app"; "YouTube_downloads"] := File "" ]};
     cwd := ["app"]; log := []; console := []; stdin := []; spawned := [] |}.

(** The file of [with_video]. *)
Definition video_path : string := "/app/YouTube_downloads/Video/1.mp4".

(** ** Facts about the string primitives *)

Module PyFacts.
Import Py.

Lemma app_cons (a : ascii) (s t : string) : String a s +:+ t = String a (s +:+ t).
Proof. reflexivity. Qed.

Lemma app_nil_l (s : string) : "" +:+ s = s.
Proof. reflexivity. Qed.

Lemma app_nil_r (s : string) : s +:+ "" = s.
Proof. induction s as [|a s IH]; [done|]. by rewrite app_cons, IH. Qed.

Lemma app_assoc (s t u : string) : (s +:+ t) +:+ u = s +:+ t +:+ u.
Proof. induction s as [|a s IH]; [done|]. by rewrite !app_cons, IH. Qed.

Lemma length_app (s t : string) :
  String.length (s +:+ t) = (String.length s + String.length t)%nat.
Proof. induction s as [|a s IH]; [done|]. rewrite app_cons. simpl. by rewrite IH. Qed.

Lemma len_app (s t : string) : len (s +:+ t) = len s + len t.
Proof. unfold len. rewrite length_app. lia. Qed.

Lemma len_nonneg (s : string) : 0 <= len s.
Proof. unfold len. lia. Qed.

Lemma take_app_le (n : nat) (s t : string) :
  (n <= String.length s)%nat -> take n (s +:+ t) = take n s.
Proof.
  revert n. induction s as [|a s IH]; intros [|n] Hn; simpl in Hn; try lia.
  - by destruct t.
  - done.
  - rewrite app_cons. simpl. f_equal. apply IH. lia.
Qed.

Lemma drop_app_le (n : nat) (s t : string) :
  (n <= String.length s)%nat -> drop n (s +:+ t) = drop n s +:+ t.
Proof.
  revert n. induction s as [|a s IH]; intros [|n] Hn; simpl in Hn; try lia.
  - by destruct t.
  - done.
  - rewrite app_cons. simpl. apply IH. lia.
Qed.

Lemma drop_length_app (s t : string) : drop (String.length s) (s +:+ t) = t.
Proof. induction s as [|a s IH]; [by destruct t|]. rewrite app_cons. by simpl. Qed.

Lemma take_drop (n : nat) (s : string) : take n s +:+ drop n s = s.
Proof.
  revert s. induction n as [|n IH]; intros [|a s]; simpl; try done.
  by rewrite app_cons, IH.
Qed.

Lemma rfind_range (c : ascii) (s : string) : -1 <= rfind c s < len s.
Proof.
  unfold len. induction s as [|a s IH]; simpl rfind; simpl String.length; [lia|].
  destruct (Z.leb_spec 0 (rfind c s)); [lia|]. destruct (Ascii.eqb a c); lia.
Qed.

Lemma rfind_app (c : ascii) (s t : string) :
  rfind c (s +:+ t) = if 0 <=? rfind c t then len s + rfind c t else rfind c s.
Proof.
  unfold len. pose proof (rfind_range c t) as Ht. induction s as [|a s IH].
  - rewrite app_nil_l. simpl.
    destruct (Z.leb_spec 0 (rfind c t)); lia.
  - rewrite app_cons. simpl rfind. simpl String.length. rewrite IH.
    pose proof (rfind_range c s).
    destruct (Z.leb_spec 0 (rfind c t)); [|done].
    destruct (Z.leb_spec 0 (Z.of_nat (String.length s) + rfind c t)); lia.
Qed.

Lemma rfind_drop (c : ascii) (n : nat) (s : string) :
  rfind c (drop n s)
  = if Z.of_nat n <=? rfind c s then rfind c s - Z.of_nat n else -1.
Proof.
  revert s. induction n as [|n IH]; intros s.
  - pose proof (rfind_range c s).
    replace (drop 0 s) with s by (by destruct s).
    destruct (Z.leb_spec (Z.of_nat 0) (rfind c s)); lia.
  - destruct s as [|a s]; [done|].
    simpl drop. rewrite IH. simpl rfind.
    pose proof (rfind_range c s).
    destruct (Z.leb_spec 0 (rfind c s)).
    + destruct (Z.leb_spec (Z.of_nat n) (rfind c s));
        destruct (Z.leb_spec (Z.of_nat (S n)) (rfind c s + 1)); lia.
    + destruct (Z.leb_spec (Z.of_nat n) (rfind c s)); [lia|].
      destruct (Ascii.eqb a c).
      * destruct (Z.leb_spec (Z.of_nat (S n)) 0); lia.
      * destruct (Z.leb_spec (Z.of_nat (S n)) (-1)); lia.
Qed.

(** The character at the index [rfind] answers is the needle, and the
    needle does not occur after it. *)
Lemma drop_rfind (c : ascii) (s : string) :
  0 <= rfind c s ->
  exists r, drop (Z.to_nat (rfind c s)) s = String c r /\ rfind c r = -1.
Proof.
  induction s as [|a s IH]; simpl rfind; [lia|].
  pose proof (rfind_range c s).
  destruct (Z.leb_spec 0 (rfind c s)).
  - intros _. destruct IH as (r & Hr & Hc); [lia|].
    exists r. split; [|done].
    replace (Z.to_nat (rfind c s + 1)) with (S (Z.to_nat (rfind c s))) by lia.
    done.
  - destruct (Ascii.eqb a c) eqn:Ea; [|lia].
    intros _. apply Ascii.eqb_eq in Ea as ->. exists s. split; [done|lia].
Qed.

End PyFacts.

Module PathFacts.
Import Py PyFacts Path.

Lemma length_drop (n : nat) (s : string) :
  String.length (drop n s) = (String.length s - n)%nat.
Proof.
  revert s. induction n as [|n IH]; intros [|a s]; simpl; try done; lia.
Qed.

Lemma clamp_in_range (i : Z) (s : string) :
  0 <= i <= len s -> clamp i s = Z.to_nat i.
Proof.
  intros Hi. unfold clamp. destruct (Z.ltb_spec i 0); [lia|].
  f_equal. lia.
Qed.

Lemma slice_to_app (i : Z) (s t : string) :
  0 <= i <= len s -> slice_to i (s +:+ t) = slice_to i s.
Proof.
  intros Hi. unfold slice_to. pose proof (len_nonneg t).
  rewrite !clamp_in_range by (rewrite ?len_app; lia).
  apply take_app_le. unfold len in Hi. lia.
Qed.

(** One character of [s] is not disturbed by what is appended to [s]. *)
Lemma slice_char_app (i : Z) (s t : string) :
  0 <= i < len s -> slice i (i + 1) (s +:+ t) = slice i (i + 1) s.
Proof.
  intros Hi. unfold slice. pose proof (len_nonneg t).
  rewrite !clamp_in_range by (rewrite ?len_app; lia).
  replace (Z.to_nat (i + 1) - Z.to_nat i)%nat with 1%nat by lia.
  unfold len in Hi. rewrite drop_app_le by lia.
  pose proof (length_drop (Z.to_nat i) s) as Hd.
  destruct (drop (Z.to_nat i) s) as [|a r]; simpl in Hd; [lia|].
  rewrite app_cons. by simpl.
Qed.

Lemma name_before_dot_app (p q : string) (d : Z) (n : nat) :
  d <= len p -> Z.of_nat n <= d ->
  name_before_dot (p +:+ q) d n = name_before_dot p d n.
Proof.
  intros Hd. induction n as [|n IH]; intros Hn; [done|].
  cbn [name_before_dot]. rewrite slice_char_app by lia.
  rewrite IH by lia. done.
Qed.

Lemma name_before_dot_found (p : string) (d : Z) (n : nat) (j : Z) :
  d - Z.of_nat n <= j < d ->
  slice j (j + 1) p ≠ String extsep "" ->
  name_before_dot p d n = true.
Proof.
  intros Hj Hne. induction n as [|n IH]; [lia|].
  cbn [name_before_dot].
  destruct (String.eqb_spec (slice (d - Z.of_nat (S n)) (d - Z.of_nat (S n) + 1) p)
              (String extsep "")) as [Heq|]; [|done].
  simpl. apply IH.
  destruct (decide (j = d - Z.of_nat (S n))) as [->|]; [done|lia].
Qed.

(** The extension [splitext] answers is empty and the scan for a file
    name before the last dot has failed, or it is the text from the last
    dot on: it starts with its only dot and holds no separator. *)
Lemma splitext_ext (p : string) :
  ((splitext p).2 = ""
   ∧ ((rfind sep p <? rfind extsep p) = false
      ∨ name_before_dot p (rfind extsep p)
          (Z.to_nat (rfind extsep p - (rfind sep p + 1))) = false))
  ∨ (∃ r, (splitext p).2 = String extsep r
          ∧ rfind extsep r = -1 ∧ rfind sep (String extsep r) = -1).
Proof.
  unfold splitext. pose proof (rfind_range sep p). pose proof (rfind_range extsep p).
  assert (slice_to 0 p = "") as Hnil by (by destruct p).
  destruct (Z.ltb_spec (rfind sep p) (rfind extsep p)); [|left; auto].
  destruct (name_before_dot _ _ _) eqn:E; [|left; auto].
  right. simpl. unfold slice_from. rewrite clamp_in_range by lia.
  destruct (drop_rfind extsep p) as (r & Hr & Hd); [lia|].
  assert (rfind sep (String extsep r) = -1) as Hsep.
  { rewrite <-Hr, rfind_drop.
    destruct (Z.leb_spec (Z.of_nat (Z.to_nat (rfind extsep p))) (rfind sep p));
      [lia|done]. }
  exists r. rewrite Hr. auto.
Qed.

End PathFacts.

Section StrippedPath.
Import Py PyFacts Path PathFacts.

Lemma rfind_sep_stripped (p : string) :
  rfind sep (stripped_path p) = rfind sep p.
Proof.
  unfold stripped_path.
  destruct (splitext_ext p) as [[He _]|(r & He & _ & Hr)];
    rewrite He, !rfind_app, ?Hr; done.
Qed.

Lemma splitext_stripped (p : string) :
  (splitext (stripped_path p)).2 = (splitext p).2.
Proof.
  pose proof (rfind_range sep p) as Hs. pose proof (rfind_range extsep p) as Hd.
  pose proof (rfind_sep_stripped p) as Hsep.
  destruct (splitext_ext p) as [[He Hno]|(r & Hr & Hdot & Hnosep)].
  - (* no extension: the last dot and the last separator stay where they are *)
    rewrite He. unfold splitext. rewrite Hsep.
    assert (rfind extsep (stripped_path p) = rfind extsep p) as ->.
    { unfold stripped_path. rewrite He, !rfind_app. done. }
    assert (slice_to 0 (stripped_path p) = "") as -> by (by destruct (stripped_path p)).
    destruct (Z.ltb_spec (rfind sep p) (rfind extsep p)); [|done].
    destruct Hno as [?|Hno]; [done|].
    unfold stripped_path. rewrite name_before_dot_app, Hno by lia. done.
  - (* an extension: the last dot of the new path is the one just appended *)
    assert (rfind extsep (stripped_path p) = len p + 9) as Hnewdot.
    { unfold stripped_path. rewrite Hr, !rfind_app. simpl rfind. rewrite Hdot. simpl.
      unfold len. simpl. lia. }
    assert (len (stripped_path p) = len p + 9 + len (String extsep r)) as Hlen.
    { unfold stripped_path. rewrite Hr, !len_app. unfold len. simpl. lia. }
    pose proof (len_nonneg (String extsep r)).
    rewrite Hr. unfold splitext. rewrite Hsep, Hnewdot.
    destruct (Z.ltb_spec (rfind sep p) (len p + 9)); [|lia].
    rewrite (name_before_dot_found _ _ _ (len p)).
    + simpl. unfold slice_from. rewrite clamp_in_range by lia.
      unfold stripped_path. rewrite Hr, <-app_assoc.
      replace (Z.to_nat (len p + 9)) with (String.length (p +:+ "_stripped"))
        by (rewrite length_app; unfold len; simpl; lia).
      apply drop_length_app.
    + lia.
    + unfold slice. rewrite !clamp_in_range by lia.
      replace (Z.to_nat (len p + 1) - Z.to_nat (len p))%nat with 1%nat by lia.
      unfold stripped_path, len. rewrite Nat2Z.id, drop_length_app. done.
Qed.

Lemma dirname_stripped (p : string) :
  dirname (stripped_path p) = dirname p.
Proof.
  unfold dirname. rewrite rfind_sep_stripped.
  assert (slice_to (rfind sep p + 1) (stripped_path p)
          = slice_to (rfind sep p + 1) p) as ->; [|done].
  apply slice_to_app. pose proof (rfind_range sep p). lia.
Qed.

Lemma stripped_path_longer (p : string) :
  (String.length p < String.length (stripped_path p))%nat.
Proof. unfold stripped_path. rewrite !length_app. simpl. lia. Qed.

End StrippedPath.

(** ** Facts about the search *)

Module ReFacts.
Import Py PyFacts Re.

Lemma match_literal_Some (lit s r : string) :
  match_literal lit s = Some r ↔ s = lit +:+ r.
Proof.
  revert s. induction lit as [|c lit IH]; intros s; simpl.
  - rewrite app_nil_l. split; congruence.
  - rewrite app_cons. destruct s as [|a s]; [split; discriminate|].
    destruct (Ascii.eqb_spec a c) as [->|Hne].
    + rewrite IH. split; congruence.
    + split; congruence.
Qed.




Lemma match_here_Some (s g : string) :
  match_here s = Some g ↔
  ∃ rest, s = DESTINATION +:+ rest ∧ dot_run rest = g ∧ g ≠ "".
Proof.
  unfold match_here. split.
  - destruct (match_literal DESTINATION s) as [rest|] eqn:E; [|done].
    apply match_literal_Some in E. intros H. exists rest.
    destruct (dot_run rest); naive_solver.
  - intros (rest & -> & Hg & Hne).
    rewrite (proj2 (match_literal_Some _ _ rest)) by done.
    rewrite Hg. by destruct g.
Qed.

Lemma match_here_None (s : string) :
  match_here s = None ↔
  ∀ rest, s = DESTINATION +:+ rest → dot_run rest = "".
Proof.
  split.
  - intros Hn rest ->. destruct (dot_run rest) as [|a g] eqn:E; [done|].
    assert (match_here (DESTINATION +:+ rest) = Some (String a g)) as Hs.
    { apply match_here_Some. eauto. }
    congruence.
  - intros H. destruct (match_here s) as [g|] eqn:E; [|done].
    apply match_here_Some in E as (rest & -> & Hg & Hne).
    rewrite (H rest) in Hg by done. congruence.
Qed.













End ReFacts.

(** ** Facts about the computations *)

Section MonadFacts.
Context {A B : Type}.

Lemma bind_Ret (m : M A) (k : A → M B) (w w' : World) (a : A) :
  m w = (Ret a, w') → bind m k w = k a w'.
Proof. unfold bind. by intros ->. Qed.

Lemma bind_Raise (m : M A) (k : A → M B) (w w' : World) (e : exn) :
  m w = (Raise e, w') → bind m k w = (Raise e, w').
Proof. unfold bind. by intros ->. Qed.

Lemma try_except_Ret (body : M A) (h : exn → option (M A)) (w w' : World) (a : A) :
  body w = (Ret a, w') → try_except body h w = (Ret a, w').
Proof. unfold try_except. by intros ->. Qed.

Lemma try_except_Raise (body : M A) (h : exn → option (M A)) (w w' : World) (e : exn) :
  body w = (Raise e, w') →
  try_except body h w = match h e with Some k => k w' | None => (Raise e, w') end.
Proof. unfold try_except. by intros ->. Qed.

End MonadFacts.

Section ReplaceFacts.

Lemma replace_raises (src dst : string) (w w' : World) (e : exn) :
  Os.replace src dst w = (Raise e, w') → is_OSError e = true ∧ w' = w.
Proof.
  unfold Os.replace. repeat (case_match; simpl); naive_solver.
Qed.

Lemma replace_keeps (src dst : string) (w : World) :
  let w' := (Os.replace src dst w).2 in
  cwd w' = cwd w ∧ log w' = log w ∧ console w' = console w
  ∧ stdin w' = stdin w ∧ spawned w' = spawned w.
Proof.
  unfold Os.replace. repeat (case_match; simpl); done.
Qed.

Lemma stripped_path_nonempty (p : string) : stripped_path p ≠ "".
Proof.
  intros H. pose proof (stripped_path_longer p) as Hl. rewrite H in Hl.
  simpl in Hl. lia.
Qed.

(** What [os.replace] does to the files depends on the files and the
    working directory only. *)
Lemma replace_fs_ext (src dst : string) (w wa : World) :
  fs w = fs wa → cwd w = cwd wa →
  fs (Os.replace src dst w).2 = fs (Os.replace src dst wa).2.
Proof.
  intros Hfs Hcwd. unfold Os.replace, Os.resolve. rewrite Hfs, Hcwd.
  repeat (case_match; simpl); done.
Qed.

(** Replacing by a regular file: the destination takes the content, the
    source is gone. *)
Lemma replace_file (src dst c : string) (w : World) :
  let ks := Os.resolve w src in
  let kd := Os.resolve w dst in
  src ≠ "" → dst ≠ "" →
  Os.lookup_node (fs w) ks = Some (File c) →
  Os.lookup_node (fs w) (removelast kd) = Some Dir →
  Os.lookup_node (fs w) kd ≠ Some Dir →
  ∃ w', Os.replace src dst w = (Ret tt, w')
        ∧ Os.lookup_node (fs w') kd = Some (File c)
        ∧ (ks ≠ kd → Os.lookup_node (fs w') ks = None).
Proof.
  intros ks kd Hs Hd Hks Hpar Hkd. unfold Os.replace.
  fold ks kd.
  destruct (String.eqb_spec src ""); [done|].
  destruct (String.eqb_spec dst ""); [done|]. simpl.
  rewrite Hks, Hpar.
  assert (kd ≠ []) as Hkdne by (intros E; rewrite E in Hkd; done).
  assert (ks ≠ []) as Hksne by (intros E; rewrite E in Hks; done).
  case_bool_decide as Heq.
  - eexists. split; [done|]. split; [by rewrite <-Heq|done].
  - assert (∀ m : gmap (list string) node,
              Os.lookup_node m kd = m !! kd) as Hlk by (by destruct kd).
    assert (∀ m : gmap (list string) node,
              Os.lookup_node m ks = m !! ks) as Hls by (by destruct ks).
    destruct (Os.lookup_node (fs w) kd) as [[|]|] eqn:E; [|done|].
    + eexists. split; [done|]. simpl. rewrite Hlk, Hls.
      rewrite lookup_insert_eq, lookup_insert_ne, lookup_delete_eq by done. done.
    + eexists. split; [done|]. simpl. rewrite Hlk, Hls.
      rewrite lookup_insert_eq, lookup_insert_ne, lookup_delete_eq by done. done.
Qed.

End ReplaceFacts.

Section StripFacts.
Variable spawn : World → list string → proc_result.

Lemma strip_metadata_not_found (file_path : string) (w : World) :
  spawn w (strip_cmd file_path) = NotFound →
  strip_metadata spawn file_path w
  = (Ret tt, add_log ERROR ("File not found for metadata stripping: " +:+ file_path)
               (add_spawned (strip_cmd file_path) w)).
Proof.
  intros H. unfold strip_metadata, try_except, bind, subprocess_run.
  by rewrite H.
Qed.

Lemma strip_metadata_exit_zero (file_path : string) (w : World)
    (result : CompletedProcess) (m : gmap (list string) node) :
  spawn w (strip_cmd file_path) = Exited result m →
  returncode result = 0 →
  strip_metadata spawn file_path w
  = replace_step file_path
      (logging INFO ("Metadata successfully stripped for: " +:+ file_path))
      (set_fs m (add_spawned (strip_cmd file_path) w)).
Proof.
  intros H Hrc. unfold strip_metadata, try_except, bind, subprocess_run, replace_step.
  rewrite H. simpl. rewrite Hrc. simpl.
  destruct (Os.replace _ _ _) as [[[]|e] w'] eqn:E; [done|].
  apply replace_raises in E as [He _]. unfold strip_error_message.
  destruct e; try done. by destruct k.
Qed.

Lemma strip_metadata_exit_nonzero (file_path : string) (w : World)
    (result : CompletedProcess) (m : gmap (list string) node) :
  spawn w (strip_cmd file_path) = Exited result m →
  returncode result ≠ 0 →
  let w1 := add_log WARNING (warning_message result)
              (set_fs m (add_spawned (strip_cmd file_path) w)) in
  strip_metadata spawn file_path w
  = match Os.path_exists (stripped_path file_path) w1 with
    | (Ret true, _) => replace_step file_path (ret tt) w1
    | _ => (Ret tt, w1)
    end.
Proof.
  intros H Hrc. unfold strip_metadata, try_except, bind, subprocess_run, replace_step.
  rewrite H. simpl. destruct (Z.eqb_spec (returncode result) 0) as [|_]; [done|].
  simpl. fold (warning_message result).
  destruct (negb _ && bool_decide _); [|done].
  unfold add_log at 1. simpl.
  destruct (Os.replace _ _ _) as [[[]|e] w'] eqn:E; [done|].
  apply replace_raises in E as [He _]. unfold strip_error_message.
  destruct e; try done. by destruct k.
Qed.

(** Stripping never raises. *)
Lemma strip_metadata_returns (file_path : string) (w : World) :
  ∃ w', strip_metadata spawn file_path w = (Ret tt, w').
Proof.
  destruct (spawn w (strip_cmd file_path)) as [|result m] eqn:E.
  - rewrite strip_metadata_not_found by done. eauto.
  - destruct (decide (returncode result = 0)) as [Hrc|Hrc].
    + rewrite (strip_metadata_exit_zero _ _ _ _ E Hrc). unfold replace_step.
      destruct (Os.replace _ _ _) as [[[]|e] w']; eauto.
    + rewrite (strip_metadata_exit_nonzero _ _ _ _ E Hrc). unfold replace_step.
      destruct (Os.path_exists _ _) as [[[]|] ?]; eauto.
      destruct (Os.replace _ _ _) as [[[]|e] w']; eauto.
Qed.

End StripFacts.

Section MakedirsFacts.

Lemma makedirs_from_raises (name : string) (pre rest : list string)
    (m m' : gmap (list string) node) (e : exn) :
  Os.makedirs_from name pre rest m = (Raise e, m') → is_OSError e = true.
Proof.
  revert pre m. induction rest as [|c rest IH]; intros pre m; simpl; [done|].
  destruct (m !! (pre ++ [c])) as [[|]|]; [|by apply IH..].
  by intros [= <- _].
Qed.

(** Directories that exist stay directories. *)
Lemma makedirs_from_keeps_dir (name : string) (pre rest k : list string)
    (m : gmap (list string) node) :
  m !! k = Some Dir →
  (Os.makedirs_from name pre rest m).2 !! k = Some Dir.
Proof.
  revert pre m. induction rest as [|c rest IH]; intros pre m Hk; simpl; [done|].
  destruct (m !! (pre ++ [c])) as [[|]|] eqn:E; [done|by apply IH|].
  apply IH. destruct (decide (pre ++ [c] = k)) as [<-|Hne].
  - by rewrite lookup_insert_eq.
  - by rewrite lookup_insert_ne.
Qed.

(** A second walk over directories that the first walk made or met finds
    them all and changes nothing. *)
Lemma makedirs_from_idempotent (name : string) (pre rest : list string)
    (m m' : gmap (list string) node) :
  Os.makedirs_from name pre rest m = (Ret tt, m') →
  Os.makedirs_from name pre rest m' = (Ret tt, m').
Proof.
  revert pre m. induction rest as [|c rest IH]; intros pre m; simpl; [done|].
  destruct (m !! (pre ++ [c])) as [[|]|] eqn:E; [done| |]; intros H.
  - pose proof (makedirs_from_keeps_dir name (pre ++ [c]) rest _ _ E) as Hk.
    rewrite H in Hk. simpl in Hk. rewrite Hk. by eapply IH.
  - pose proof (makedirs_from_keeps_dir name (pre ++ [c]) rest (pre ++ [c])
                  (<[pre ++ [c] := Dir]> m)) as Hk.
    rewrite H, lookup_insert_eq in Hk. simpl in Hk. rewrite Hk by done.
    by eapply IH.
Qed.

(** After a walk that returned, the last directory is there. *)
Lemma makedirs_from_made (name : string) (pre rest : list string)
    (m m' : gmap (list string) node) :
  Os.makedirs_from name pre rest m = (Ret tt, m') →
  Os.lookup_node m (pre ++ rest) = Some Dir ∨ rest ≠ [] →
  Os.lookup_node m' (pre ++ rest) = Some Dir.
Proof.
  revert pre m. induction rest as [|c rest IH]; intros pre m; simpl.
  - intros [= <-] [?|?]; done.
  - replace (pre ++ c :: rest) with ((pre ++ [c]) ++ rest)
      by (by rewrite <-app_assoc).
    assert (∀ m0 : gmap (list string) node,
              m0 !! (pre ++ [c]) = Some Dir →
              Os.lookup_node m0 ((pre ++ [c]) ++ rest) = Some Dir ∨ rest ≠ [])
      as Hstep.
    { intros m0 H0. destruct rest; [left|by right].
      rewrite app_nil_r. by destruct pre. }
    destruct (m !! (pre ++ [c])) as [[|]|] eqn:E; [done| |]; intros H _.
    + eapply IH; [done|]. by apply Hstep.
    + eapply IH; [done|]. apply Hstep. by rewrite lookup_insert_eq.
Qed.

Lemma makedirs_idempotent (name : string) (w w1 : World) :
  Os.makedirs name w = (Ret tt, w1) → Os.makedirs name w1 = (Ret tt, w1).
Proof.
  unfold Os.makedirs. destruct (String.eqb name ""); [done|].
  destruct (Os.makedirs_from name [] (Os.resolve w name) (fs w)) as [o m] eqn:E.
  intros [= -> <-]. unfold Os.resolve. simpl.
  fold (Os.resolve w name).
  rewrite (makedirs_from_idempotent _ _ _ _ _ E). by destruct w.
Qed.

Lemma makedirs_raises (name : string) (w w' : World) (e : exn) :
  Os.makedirs name w = (Raise e, w') → is_OSError e = true.
Proof.
  unfold Os.makedirs. destruct (String.eqb name ""); [by intros [= <- _]|].
  destruct (Os.makedirs_from _ _ _ _) as [o m] eqn:E. intros [= -> _].
  by eapply makedirs_from_raises.
Qed.

Lemma create_output_directory_Ret (od : string) (w w1 : World) :
  create_output_directory od w = (Ret tt, w1) ↔ Os.makedirs od w = (Ret tt, w1).
Proof.
  unfold create_output_directory, try_except.
  destruct (Os.makedirs od w) as [[[]|e] w'] eqn:E; [done|].
  apply makedirs_raises in E. rewrite E. simpl. unfold bind. simpl. split; done.
Qed.

Lemma create_output_directory_Raise (od : string) (w w' : World) (e : exn) :
  create_output_directory od w = (Raise e, w') → e = SystemExit 1.
Proof.
  unfold create_output_directory, try_except.
  destruct (Os.makedirs od w) as [[[]|e1] w1] eqn:E; [done|].
  apply makedirs_raises in E. rewrite E. simpl. unfold bind. simpl.
  by intros [= <- _].
Qed.

End MakedirsFacts.

Section DownloadFacts.
Variable spawn : World → list string → proc_result.

Lemma strip_metadata_spawned (file_path : string) (w : World) :
  spawned (strip_metadata spawn file_path w).2 = spawned w ++ [strip_cmd file_path].
Proof.
  destruct (spawn w (strip_cmd file_path)) as [|result m] eqn:E.
  - by rewrite strip_metadata_not_found.
  - destruct (decide (returncode result = 0)) as [Hrc|Hrc].
    + rewrite (strip_metadata_exit_zero _ _ _ _ _ E Hrc). unfold replace_step.
      pose proof (replace_keeps (stripped_path file_path) file_path
                    (set_fs m (add_spawned (strip_cmd file_path) w)))
        as (_ & _ & _ & _ & Hsp).
      destruct (Os.replace _ _ _) as [[[]|e] w']; simpl in *; by rewrite Hsp.
    + rewrite (strip_metadata_exit_nonzero _ _ _ _ _ E Hrc). unfold replace_step.
      destruct (Os.path_exists _ _) as [[[]|] ?] eqn:Hex; try done.
      pose proof (replace_keeps (stripped_path file_path) file_path
                    (add_log WARNING (warning_message result)
                       (set_fs m (add_spawned (strip_cmd file_path) w))))
        as (_ & _ & _ & _ & Hsp).
      destruct (Os.replace _ _ _) as [[[]|e] w']; simpl in *; by rewrite Hsp.
Qed.

(** After a fetch that returned, the function searches the captured
    output and acts on the answer; no handler of the function is reached. *)
Lemma download_after_fetch (url base : string) (audio_only : bool)
    (w w2 : World) (result : CompletedProcess) :
  fetch spawn url (output_directory_of base audio_only) audio_only w
  = (Ret result, w2) →
  download_youtube_media spawn url base audio_only w
  = match Re.search (stdout result) with
    | Some final_file_path =>
        (Ret tt,
         add_console (success_message url)
           (strip_metadata spawn final_file_path
              (add_log INFO (completed_message final_file_path) w2)).2)
    | None =>
        (Ret tt, add_log WARNING (not_located_warning url)
                   (add_console (not_located_message url) w2))
    end.
Proof.
  unfold fetch, download_youtube_media, try_except, bind, started_message.
  destruct (create_output_directory _ w) as [[[]|e] w1]; [|done].
  simpl. destruct (subprocess_run _ _ _ _) as [[r|e] w1']; [|done].
  simpl. intros [= -> <-].
  destruct (Re.search (stdout result)) as [path|]; [|done].
  simpl.
  destruct (strip_metadata_returns spawn path
              (add_log INFO (completed_message path)
                 (add_log INFO ("yt-dlp stderr: " +:+ stderr result)
                    (add_log INFO ("yt-dlp stdout: " +:+ stdout result) w1'))))
    as (w3 & Hw3).
  unfold add_log, completed_message in Hw3 |- *. simpl in Hw3 |- *.
  rewrite Hw3. done.
Qed.

(** A downloader that exits with a non-zero status: the handler of
    [CalledProcessError] logs, prints, and the function returns. *)
Lemma download_fetch_failure (url base : string) (audio_only : bool)
    (w w1 : World) (result : CompletedProcess) (m : gmap (list string) node) :
  let od := output_directory_of base audio_only in
  let cmd := download_cmd url od audio_only in
  create_output_directory od w = (Ret tt, w1) →
  spawn (add_log INFO (started_message url od) w1) cmd = Exited result m →
  returncode result ≠ 0 →
  download_youtube_media spawn url base audio_only w
  = (Ret tt,
     add_console (download_failed_message url)
       (add_log ERROR
          (download_error_message (CalledProcessError cmd (returncode result)))
          (set_fs m (add_spawned cmd
                          (add_log INFO (started_message url od) w1))))).
Proof.
  intros od cmd Hdir Hspawn Hrc.
  unfold download_youtube_media, try_except, bind. fold od. rewrite Hdir.
  unfold logging at 1, subprocess_run. cbv beta iota. fold cmd.
  unfold started_message in Hspawn. rewrite Hspawn.
  destruct (Z.eqb_spec (returncode result) 0) as [|_]; [done|].
  done.
Qed.

Lemma download_all_cons (url : string) (rest : list string) (base : string)
    (audio_only : bool) (w w' : World) :
  download_youtube_media spawn url base audio_only w = (Ret tt, w') →
  download_all spawn (url :: rest) base audio_only w
  = download_all spawn rest base audio_only w'.
Proof. intros H. unfold download_all. simpl. unfold bind. by rewrite H. Qed.

(** What can leave [download_youtube_media] as an exception: the exit
    of [create_output_directory], or a downloader that cannot be started. *)
Lemma download_raises (url base : string) (audio_only : bool)
    (w w' : World) (e : exn) :
  download_youtube_media spawn url base audio_only w = (Raise e, w') →
  e = SystemExit 1 ∨ e = OSError FileNotFound "yt-dlp".
Proof.
  unfold download_youtube_media, try_except, bind.
  destruct (create_output_directory _ w) as [[[]|e1] w1] eqn:Hdir.
  - simpl. unfold subprocess_run.
    destruct (spawn _ _) as [|result m].
    + simpl. intros [= <- _]. by right.
    + destruct (Z.eqb_spec (returncode result) 0) as [Hrc|Hrc]; simpl; [|done].
      destruct (Re.search (stdout result)) as [path|]; [|done]. simpl.
      match goal with
      | |- context [strip_metadata spawn path ?w0] =>
          destruct (strip_metadata_returns spawn path w0) as (w3 & ->)
      end. done.
  - apply create_output_directory_Raise in Hdir as ->.
    simpl. intros [= <- _]. by left.
Qed.

End DownloadFacts.

Module TrimFacts.
Import Py PyFacts.

Lemma lstrip_spec (s : string) :
  ∃ pre, s = pre +:+ lstrip_by isspace s ∧ all_space pre = true
         ∧ starts_with_space (lstrip_by isspace s) = false.
Proof.
  induction s as [|a s (pre & Heq & Hpre & Hst)].
  - by exists "".
  - simpl. destruct (isspace a) eqn:Ha.
    + exists (String a pre). rewrite app_cons, <-Heq. simpl. by rewrite Ha, Hpre.
    + exists "". simpl. by rewrite Ha.
Qed.

Lemma rstrip_nil_iff (s : string) :
  rstrip_by isspace s = "" ↔ all_space s = true.
Proof.
  induction s as [|a s IH]; [done|]. simpl.
  destruct (rstrip_by isspace s) as [|b r] eqn:E.
  - destruct (isspace a); simpl; [|done]. by rewrite <-IH.
  - split; [done|]. intros [_ Hs]%andb_true_iff. by apply IH in Hs.
Qed.

Lemma rstrip_spec (s : string) :
  ∃ post, s = rstrip_by isspace s +:+ post ∧ all_space post = true
          ∧ ends_with_space (rstrip_by isspace s) = false
          ∧ (starts_with_space s = false →
             starts_with_space (rstrip_by isspace s) = false).
Proof.
  induction s as [|a s (post & Heq & Hpost & Hend & _)].
  - by exists "".
  - simpl. destruct (rstrip_by isspace s) as [|b r] eqn:E.
    + destruct (isspace a) eqn:Ha.
      * exists (String a s). simpl. rewrite Ha. simpl.
        split; [done|]. split; [by apply rstrip_nil_iff|done].
      * exists post. rewrite app_cons, <-Heq. simpl. by rewrite Ha.
    + exists post. rewrite app_cons, <-Heq. done.
Qed.

Lemma strip_spec (s : string) : trimmed_of s (strip s).
Proof.
  unfold strip. destruct (lstrip_spec s) as (pre & Heq & Hpre & Hst).
  destruct (rstrip_spec (lstrip_by isspace s)) as (post & Heq' & Hpost & Hend & Hst').
  exists pre, post. split; [by rewrite <-Heq'|]. auto.
Qed.

Lemma all_space_app (s t : string) :
  all_space (s +:+ t) = all_space s && all_space t.
Proof.
  induction s as [|a s IH]; [done|]. rewrite app_cons. simpl.
  by rewrite IH, andb_assoc.
Qed.

Lemma lstrip_all_space (s : string) :
  all_space (lstrip_by isspace s) = all_space s.
Proof.
  induction s as [|a s IH]; [done|]. simpl.
  destruct (isspace a) eqn:Ha; simpl; by rewrite ?Ha.
Qed.

(** A line is blank exactly when stripping leaves nothing. *)
Lemma strip_nil_iff (s : string) : strip s = "" ↔ all_space s = true.
Proof. unfold strip. by rewrite rstrip_nil_iff, lstrip_all_space. Qed.

End TrimFacts.

Section InputFacts.
Import Py PyFacts TrimFacts.

Lemma endswith_nonempty (p s : string) :
  p ≠ "" → endswith p s = true → s ≠ "".
Proof.
  intros Hp H ->. unfold endswith in H. destruct p; [done|]. done.
Qed.

Lemma lower_nil (s : string) : lower s = "" → s = "".
Proof. by destruct s. Qed.

Lemma process_input_url (input_str : string) (w : World) :
  startswith "http" input_str = true →
  process_input input_str w = (Ret [input_str], w).
Proof. intros H. unfold process_input. by rewrite H. Qed.

Lemma process_input_list (input_str : string) (w : World) :
  startswith "http" input_str = false →
  endswith ".txt" (lower input_str) = true →
  process_input input_str w
  = match Os.read_lines input_str w with
    | (Ret file, w') =>
        match strip <$> filter (λ line, all_space line = false) file with
        | [] => (Raise (SystemExit 1), add_console empty_list_message w')
        | urls => (Ret urls, w')
        end
    | (Raise e, w') => (Raise e, w')
    end.
Proof.
  intros H1 H2. unfold process_input, bind. rewrite H1, H2.
  destruct (Os.read_lines input_str w) as [[file|e] w']; [|done].
  rewrite (list_filter_iff (λ line, strip line ≠ "") (λ line, all_space line = false)).
  2:{ intros line. rewrite strip_nil_iff. by destruct (all_space line). }
  by destruct (strip <$> _).
Qed.

Lemma read_lines_file (p content : string) (w : World) :
  p ≠ "" →
  Os.lookup_node (fs w) (Os.resolve w p) = Some (File content) →
  Os.read_lines p w = (Ret (readlines (universal_newlines content)), w).
Proof.
  intros Hp H. unfold Os.read_lines. destruct (String.eqb_spec p ""); [done|].
  by rewrite H.
Qed.

Lemma read_lines_missing (p : string) (w : World) :
  p ≠ "" →
  Os.lookup_node (fs w) (Os.resolve w p) = None →
  Os.read_lines p w
  = (Raise (OSError (Os.missing_error (fs w) (Os.resolve w p)) p), w).
Proof.
  intros Hp H. unfold Os.read_lines. destruct (String.eqb_spec p ""); [done|].
  by rewrite H.
Qed.

End InputFacts.

Section MainFacts.
Variable spawn : World → list string → proc_result.
Variable script_directory : string.

Lemma check_ffmpeg_exited (w : World) (result : CompletedProcess)
    (m : gmap (list string) node) :
  spawn w version_cmd = Exited result m →
  check_ffmpeg spawn w
  = (Ret (returncode result =? 0), set_fs m (add_spawned version_cmd w)).
Proof.
  intros H. unfold check_ffmpeg, try_except, bind, subprocess_run.
  fold version_cmd. rewrite H.
  by destruct (returncode result =? 0).
Qed.

Lemma check_ffmpeg_not_found (w : World) :
  spawn w version_cmd = NotFound →
  check_ffmpeg spawn w
  = (Raise (OSError FileNotFound "ffmpeg"), add_spawned version_cmd w).
Proof.
  intros H. unfold check_ffmpeg, try_except, bind, subprocess_run.
  fold version_cmd. by rewrite H.
Qed.

Lemma main_unfold (w : World) :
  main spawn script_directory w
  = match check_ffmpeg spawn w with
    | (Ret true, w') => main_from_prompt spawn script_directory w'
    | (Ret false, w') =>
        (Raise (SystemExit 1), add_console "Error: FFmpeg not installed." w')
    | (Raise e, w') => (Raise e, w')
    end.
Proof.
  unfold main, main_from_prompt. unfold bind at 1.
  destruct (check_ffmpeg spawn w) as [[[]|e] w']; done.
Qed.

End MainFacts.

Section BatchFacts.
Variable spawn : World → list string → proc_result.

Lemma makedirs_world (name : string) (w w1 : World) (o : outcome unit) :
  Os.makedirs name w = (o, w1) → w1 = set_fs (fs w1) w.
Proof.
  unfold Os.makedirs. destruct (String.eqb name "").
  - intros [= _ <-]. by destruct w.
  - destruct (Os.makedirs_from _ _ _ _) as [o' m]. by intros [= _ <-].
Qed.

Lemma strip_failure_logged (file_path : string) (w : World) :
  strip_failed spawn file_path w →
  ∃ w3 lvl msg more,
    strip_metadata spawn file_path w = (Ret tt, w3)
    ∧ lvl ≠ INFO
    ∧ log w3 = log w ++ (lvl, msg) :: more
    ∧ console w3 = console w.
Proof.
  unfold strip_failed.
  destruct (spawn w (strip_cmd file_path)) as [|result m] eqn:E.
  - intros _. rewrite strip_metadata_not_found by done.
    eexists _, ERROR, _, []. done.
  - destruct (decide (returncode result = 0)) as [Hrc|Hrc].
    + intros [?|[e He]]; [done|].
      rewrite (strip_metadata_exit_zero _ _ _ _ _ E Hrc). unfold replace_step.
      destruct (Os.replace _ _ _) as [[[]|e'] w'] eqn:Hrep; [by simpl in He|].
      apply replace_raises in Hrep as [_ ->].
      eexists _, ERROR, _, []. done.
    + intros _.
      rewrite (strip_metadata_exit_nonzero _ _ _ _ _ E Hrc). unfold replace_step.
      set (w1 := add_log WARNING (warning_message result)
                   (set_fs m (add_spawned (strip_cmd file_path) w))).
      destruct (Os.path_exists _ w1) as [[[]|] ?];
        try (eexists w1, WARNING, _, []; done).
      pose proof (replace_keeps (stripped_path file_path) file_path w1)
        as (_ & Hlog & Hcon & _).
      destruct (Os.replace _ _ w1) as [[[]|e'] w'] eqn:Hrep; simpl in Hlog, Hcon.
      * exists w', WARNING, (warning_message result), [].
        unfold ret. rewrite Hlog, Hcon. done.
      * exists (add_log ERROR (strip_error_message file_path e') w'), WARNING,
          (warning_message result), [(ERROR, strip_error_message file_path e')].
        simpl. rewrite Hlog, Hcon. simpl.
        split; [done|]. split; [done|]. by rewrite <-app_assoc.
Qed.

Lemma download_all_outcome (urls : list string) (base : string)
    (audio_only : bool) (w w' : World) (o : outcome unit) :
  download_all spawn urls base audio_only w = (o, w') →
  o = Ret tt ∨ o = Raise (SystemExit 1) ∨ o = Raise (OSError FileNotFound "yt-dlp").
Proof.
  revert w. induction urls as [|url urls IH]; intros w.
  - intros [= <- _]. by left.
  - destruct (download_youtube_media spawn url base audio_only w)
      as [[[]|e] w1] eqn:E.
    + rewrite (download_all_cons _ _ _ _ _ _ _ E). apply IH.
    + unfold download_all. simpl. unfold bind. rewrite E. intros [= <- _].
      apply download_raises in E as [->| ->]; auto.
Qed.

End BatchFacts.

(** ** Sanity checks of the primitives *)
Example splitext_mp4 : Path.splitext "/a/b/c.mp4" = ("/a/b/c", ".mp4").
Proof. reflexivity. Qed.
Example splitext_hidden : Path.splitext "/a/.bashrc" = ("/a/.bashrc", "").
Proof. reflexivity. Qed.
Example splitext_dots : Path.splitext "..x.tar.gz" = ("..x.tar", ".gz").
Proof. reflexivity. Qed.
Example splitext_dir_dot : Path.splitext "/a.b/c" = ("/a.b/c", "").
Proof. reflexivity. Qed.
Example dirname_file : Path.dirname "/a/b/c.mp4" = "/a/b".
Proof. reflexivity. Qed.
Example dirname_root : Path.dirname "//c" = "//".
Proof. reflexivity. Qed.
Example readlines_ex : Py.readlines "a" = ["a"].
Proof. reflexivity. Qed.

(** ** The properties *)



(** Claim C2 as stated fails: on a machine whose media processor exits
    with status 1, the download of one URL succeeds, stripping fails, and
    the only line the user sees is the announcement of success; the
    failure is in the log only. *)
Lemma strip_failure_not_shown :
  let spawn := machine "" 1 false in
  let url := "https://x/1" in
  let base := "/app/YouTube_downloads" in
  let f := fetch spawn url (output_directory_of base false) false (home []) in
  let r := download_youtube_media spawn url base false (home []) in
  (∃ result, f.1 = Ret result
             ∧ Re.search (stdout result) = Some (video_file url))
  ∧ strip_failed spawn (video_file url)
      (add_log INFO (completed_message (video_file url)) f.2)
  ∧ r.1 = Ret tt
  ∧ console r.2 = [success_message url]
  ∧ ¬ failure_shown url (home []) r.2.
Proof.
  intros spawn url base f r.
  assert (console r.2 = [success_message url]) as Hc by (vm_compute; reflexivity).
  split_and!.
  - exists (completed 0
              (unlines [ "[youtube] Extracting URL: " +:+ url;
                         "[download] Destination: " +:+ video_file url;
                         "[download] 100% of 1.00MiB" ]) "").
    split; vm_compute; reflexivity.
  - assert (spawn (add_log INFO (completed_message (video_file url)) f.2)
              (strip_cmd (video_file url))
            = Exited (completed 1 "" "Conversion failed!") (fs f.2)) as Hs
      by (vm_compute; reflexivity).
    unfold strip_failed. rewrite Hs. left. discriminate.
  - vm_compute. reflexivity.
  - exact Hc.
  - intros (l & Hin & Hne). rewrite Hc in Hin.
    change (l ∈ [success_message url]) in Hin.
    apply list_elem_of_singleton in Hin. exact (Hne Hin).
Qed.

(** Claim C2, amended.  For every URL of the batch: (1) when the
    downloader exits with a non-zero status, the error is caught, logged
    at level ERROR and shown on the console, and the loop goes on with
    the next URL; (2) when stripping fails, the failure is caught and
    logged at level WARNING or ERROR, the console gets the announcement
    of success and nothing else, and the loop goes on with the next URL;
    (3) for three URLs of which only the second download fails, the
    first and the third are processed and the batch ends with exit
    status 0; (4) whatever the URLs, the batch ends normally unless the
    output directory cannot be made ([SystemExit 1]) or the downloader
    cannot be started. *)
Theorem batch_isolates_failures
    (spawn : World → list string → proc_result) (base : string)
    (audio_only : bool) (url : string) (rest : list string) (w : World) :
  let od := output_directory_of base audio_only in
  let cmd := download_cmd url od audio_only in
  (∀ w1 result m,
     create_output_directory od w = (Ret tt, w1) →
     spawn (add_log INFO (started_message url od) w1) cmd = Exited result m →
     returncode result ≠ 0 →
     ∃ w',
       download_youtube_media spawn url base audio_only w = (Ret tt, w')
       ∧ log w' = log w ++ [(INFO, started_message url od);
                            (ERROR, download_error_message
                                      (CalledProcessError cmd (returncode result)))]
       ∧ console w' = console w ++ [download_failed_message url]
       ∧ download_all spawn (url :: rest) base audio_only w
         = download_all spawn rest base audio_only w')
  ∧ (∀ result w2 path,
       fetch spawn url od audio_only w = (Ret result, w2) →
       Re.search (stdout result) = Some path →
       strip_failed spawn path (add_log INFO (completed_message path) w2) →
       ∃ w3 lvl msg more,
         strip_metadata spawn path (add_log INFO (completed_message path) w2)
         = (Ret tt, w3)
         ∧ lvl ≠ INFO
         ∧ log w3 = log w2 ++ (INFO, completed_message path) :: (lvl, msg) :: more
         ∧ console w3 = console w2
         ∧ download_youtube_media spawn url base audio_only w
           = (Ret tt, add_console (success_message url) w3)
         ∧ download_all spawn (url :: rest) base audio_only w
           = download_all spawn rest base audio_only
               (add_console (success_message url) w3))
  ∧ (∀ first last w0 w1 w3 result m,
       download_youtube_media spawn first base audio_only w0 = (Ret tt, w) →
       create_output_directory od w = (Ret tt, w1) →
       spawn (add_log INFO (started_message url od) w1) cmd = Exited result m →
       returncode result ≠ 0 →
       download_youtube_media spawn last base audio_only
         (add_console (download_failed_message url)
            (add_log ERROR
               (download_error_message (CalledProcessError cmd (returncode result)))
               (set_fs m (add_spawned cmd
                            (add_log INFO (started_message url od) w1)))))
       = (Ret tt, w3) →
       download_all spawn [first; url; last] base audio_only w0 = (Ret tt, w3)
       ∧ exit_status (download_all spawn [first; url; last] base audio_only w0).1 = 0)
  ∧ (∀ urls w0,
       let o := (download_all spawn urls base audio_only w0).1 in
       o = Ret tt ∨ o = Raise (SystemExit 1)
       ∨ o = Raise (OSError FileNotFound "yt-dlp")).
Proof.
  intros od cmd. split_and!.
  - intros w1 result m Hdir Hspawn Hrc.
    pose proof (download_fetch_failure spawn url base audio_only w w1 result m
                  Hdir Hspawn Hrc) as Hd.
    eexists. split; [exact Hd|].
    split_and!; [| |by apply download_all_cons].
    + apply (proj1 (create_output_directory_Ret od w w1)), makedirs_world in Hdir.
      rewrite Hdir. simpl. by rewrite <-List.app_assoc.
    + apply (proj1 (create_output_directory_Ret od w w1)), makedirs_world in Hdir.
      by rewrite Hdir.
  - intros result w2 path Hfetch Hsearch Hfail.
    destruct (strip_failure_logged spawn path _ Hfail)
      as (w3 & lvl & msg & more & Hstrip & Hlvl & Hlog & Hcon).
    exists w3, lvl, msg, more. split; [done|]. split; [done|].
    split; [by rewrite Hlog; simpl; rewrite <-List.app_assoc|]. split; [done|].
    assert (download_youtube_media spawn url base audio_only w
            = (Ret tt, add_console (success_message url) w3)) as Hd.
    { by rewrite (download_after_fetch _ _ _ _ _ _ _ Hfetch), Hsearch, Hstrip. }
    split; [done|]. by apply download_all_cons.
  - intros first last w0 w1 w3 result m H1 Hdir Hspawn Hrc H3.
    pose proof (download_fetch_failure spawn url base audio_only w w1 result m
                  Hdir Hspawn Hrc) as H2.
    assert (download_all spawn [first; url; last] base audio_only w0 = (Ret tt, w3))
      as Hall.
    { rewrite (download_all_cons _ _ _ _ _ _ _ H1).
      rewrite (download_all_cons _ _ _ _ _ _ _ H2).
      rewrite (download_all_cons _ _ _ _ _ _ _ H3). done. }
    by rewrite Hall.
  - intros urls w0 o. subst o.
    destruct (download_all spawn urls base audio_only w0) as [o w'] eqn:E.
    by eapply download_all_outcome.
Qed.

(** Claim C2, amended, on three URLs of which the second is refused by
    the downloader. *)
Lemma batch_isolates_failures_witness :
  let spawn := machine "https://x/2" 0 true in
  let base := "/app/YouTube_downloads" in
  let urls := ["https://x/1"; "https://x/2"; "https://x/3"] in
  exit_status (download_all spawn urls base false (home [])).1 = 0
  ∧ console (download_all spawn urls base false (home [])).2
    = [ success_message "https://x/1"; download_failed_message "https://x/2";
        success_message "https://x/3" ].
Proof.
  intros spawn base urls.
  set (od := output_directory_of base false).
  set (w := (download_youtube_media spawn "https://x/1" base false (home [])).2).
  set (w1 := (create_output_directory od w).2).
  set (result := completed 1 "" "ERROR: unable to download video data").
  set (w2 := add_console (download_failed_message "https://x/2")
               (add_log ERROR
                  (download_error_message
                     (CalledProcessError (download_cmd "https://x/2" od false) 1))
                  (set_fs (fs w1)
                     (add_spawned (download_cmd "https://x/2" od false)
                        (add_log INFO (started_message "https://x/2" od) w1))))).
  set (w3 := (download_youtube_media spawn "https://x/3" base false w2).2).
  destruct (batch_isolates_failures spawn base false "https://x/2" [] w)
    as (_ & _ & H & _).
  destruct (H "https://x/1" "https://x/3" (home []) w1 w3 result (fs w1))
    as [Hall Hexit].
  - vm_compute. reflexivity.
  - vm_compute. reflexivity.
  - vm_compute. reflexivity.
  - done.
  - vm_compute. reflexivity.
  - split; [exact Hexit|]. unfold urls. rewrite Hall. vm_compute. reflexivity.
Defined.

(** Claim C3.  When the media processor exits with a non-zero status,
    [strip_metadata] returns normally and the warning is in the log.  If
    the temporary file exists, the files afterwards are those that
    [os.replace] of the temporary file onto the original leaves, the same
    as after an exit with status 0 that left the same files; in
    particular, a temporary regular file takes the place of an original
    that is not a directory, and is gone from its own place.  If the
    temporary file does not exist, nothing is replaced: the files are as
    the media processor left them. *)
Theorem strip_metadata_nonzero_exit
    (spawn : World → list string → proc_result) (file_path : string)
    (w : World) (result : CompletedProcess) (m : gmap (list string) node) :
  spawn w (strip_cmd file_path) = Exited result m →
  returncode result ≠ 0 →
  let tmp := stripped_path file_path in
  let kt := Os.resolve w tmp in
  let kf := Os.resolve w file_path in
  let w1 := add_log WARNING (warning_message result)
              (set_fs m (add_spawned (strip_cmd file_path) w)) in
  ∃ w', strip_metadata spawn file_path w = (Ret tt, w')
    ∧ (WARNING, warning_message result) ∈ log w'
    ∧ (is_Some (Os.lookup_node m kt) →
         fs w' = fs (Os.replace tmp file_path w1).2
         ∧ (∀ spawn0 result0,
              spawn0 w (strip_cmd file_path) = Exited result0 m →
              returncode result0 = 0 →
              fs w' = fs (strip_metadata spawn0 file_path w).2)
         ∧ (∀ c, file_path ≠ "" →
                 Os.lookup_node m kt = Some (File c) →
                 Os.lookup_node m (removelast kf) = Some Dir →
                 Os.lookup_node m kf ≠ Some Dir →
                 Os.lookup_node (fs w') kf = Some (File c)
                 ∧ (kt ≠ kf → Os.lookup_node (fs w') kt = None)))
    ∧ (Os.lookup_node m kt = None → w' = w1 ∧ fs w' = m).
Proof.
  intros Hspawn Hrc tmp kt kf w1.
  rewrite (strip_metadata_exit_nonzero _ _ _ _ _ Hspawn Hrc). fold w1 tmp.
  assert (Os.path_exists tmp w1
          = (Ret (bool_decide (is_Some (Os.lookup_node m kt))), w1)) as Hex.
  { unfold Os.path_exists.
    destruct (String.eqb_spec tmp ""); [by destruct (stripped_path_nonempty file_path)|].
    done. }
  rewrite Hex. case_bool_decide as Hsome.
  - unfold replace_step. fold tmp.
    pose proof (replace_keeps tmp file_path w1) as (_ & Hlog & _).
    assert (∃ w', (match Os.replace tmp file_path w1 with
                   | (Ret _, w') => ret tt w'
                   | (Raise e, w') =>
                       (Ret tt, add_log ERROR (strip_error_message file_path e) w')
                   end) = (Ret tt, w')
                  ∧ fs w' = fs (Os.replace tmp file_path w1).2
                  ∧ (WARNING, warning_message result) ∈ log w') as (w' & -> & Hfs & Hin).
    { destruct (Os.replace tmp file_path w1) as [[[]|e] w2]; simpl in *;
        eexists; (split; [done|]); (split; [done|]); simpl; rewrite Hlog;
        set_solver. }
    exists w'. split; [done|]. split; [done|]. split; [|intros Hn; rewrite Hn in Hsome; by destruct Hsome].
    intros _. split; [done|]. split.
    + intros spawn0 result0 H0 Hrc0.
      rewrite (strip_metadata_exit_zero _ _ _ _ _ H0 Hrc0). unfold replace_step.
      fold tmp. rewrite Hfs.
      rewrite (replace_fs_ext tmp file_path w1
                 (set_fs m (add_spawned (strip_cmd file_path) w))) by done.
      by destruct (Os.replace tmp file_path
                     (set_fs m (add_spawned (strip_cmd file_path) w)))
        as [[[]|e] w2].
    + intros c Hne Hkt Hpar Hkf.
      destruct (replace_file tmp file_path c w1) as (w2 & Hrep & Hdst & Hsrc);
        [by apply stripped_path_nonempty|done..|].
      rewrite Hfs, Hrep. done.
  - exists w1. split; [done|]. split; [simpl; set_solver|].
    split; [done|]. done.
Qed.

(** Claim C3 on a media processor that writes its output and exits with
    status 1. *)
Lemma strip_metadata_nonzero_exit_witness :
  let f := "/app/YouTube_downloads/Video/1.mp4" in
  ∃ w', strip_metadata (machine "" 1 true) f with_video = (Ret tt, w')
        ∧ (WARNING, warning_message (completed 1 "" "Conversion failed!")) ∈ log w'
        ∧ Os.lookup_node (fs w') (Os.resolve with_video f)
          = Some (File "stripped media")
        ∧ Os.lookup_node (fs w') (Os.resolve with_video (stripped_path f)) = None.
Proof.
  intros f.
  destruct (strip_metadata_nonzero_exit (machine "" 1 true) f with_video
              (completed 1 "" "Conversion failed!")
              (<[Os.resolve with_video (stripped_path f) := File "stripped media"]>
                 (fs with_video)))
    as (w' & Hs & Hlog & Hex & _).
  - vm_compute. reflexivity.
  - done.
  - exists w'. split; [exact Hs|]. split; [exact Hlog|].
    destruct Hex as (_ & _ & Hrep).
    + vm_compute. eauto.
    + destruct (Hrep "stripped media") as [H1 H2]; [done|vm_compute; reflexivity..| |].
      * vm_compute. done.
      * split; [exact H1|]. apply H2. vm_compute. done.
Defined.

(** Claim C4, the behaviour of the code.  When the version query runs,
    [check_ffmpeg] returns whether it exited with status 0.  When the
    executable cannot be found, [check_ffmpeg] does not return [false]:
    [FileNotFoundError] is not a [CalledProcessError], and it leaves the
    function as an exception. *)
Theorem check_ffmpeg_outcomes
    (spawn : World → list string → proc_result) (w : World) :
  (∀ result m,
     spawn w version_cmd = Exited result m →
     check_ffmpeg spawn w
     = (Ret (returncode result =? 0), set_fs m (add_spawned version_cmd w)))
  ∧ (spawn w version_cmd = NotFound →
     check_ffmpeg spawn w
     = (Raise (OSError FileNotFound "ffmpeg"), add_spawned version_cmd w)).
Proof.
  split.
  - intros result m H. by apply check_ffmpeg_exited.
  - by apply check_ffmpeg_not_found.
Qed.

(** Claim C4 on a machine without the media processor. *)
Lemma check_ffmpeg_outcomes_witness :
  check_ffmpeg no_tools (home [])
  = (Raise (OSError FileNotFound "ffmpeg"), add_spawned version_cmd (home [])).
Proof.
  apply (proj2 (check_ffmpeg_outcomes no_tools (home []))). reflexivity.
Defined.

(** Claim C5 as stated fails: on a machine without the downloader the
    script asks for its input, reads both lines, and stops only when the
    downloader is started; the only process started before the prompt is
    the version query of the media processor. *)
Lemma downloader_absent_still_prompts :
  (∀ w argv, hd "" argv = "yt-dlp" → no_downloader w argv = NotFound)
  ∧ let r := main no_downloader "/app" (home [line "https://x/1"; line "V"]) in
    r.1 = Raise (OSError FileNotFound "yt-dlp")
    ∧ stdin r.2 = []
    ∧ console r.2
      = prompt_lines
        ++ ["Do you want to download the full (V)ideo or (A)udio only? (V/A):"]
    ∧ hd [] (spawned r.2) = version_cmd.
Proof.
  split.
  - intros w [|a argv] H; [done|]. simpl in H. by subst a.
  - vm_compute. done.
Qed.

(** Claim C5, amended.  Before any input is requested the script checks
    the media processor, and only it.  When the media processor is absent,
    the script ends with exit status 1, nothing is read from the standard
    input and no prompt is printed: when its executable cannot be found,
    by the [FileNotFoundError] that leaves [check_ffmpeg]; when its version
    query exits with a non-zero status, after the line Error: FFmpeg not
    installed.  When the query exits with status 0, the script goes on to
    its prompt with one process started so far, whatever the state of the
    downloader. *)
Theorem preflight_checks_media_processor
    (spawn : World → list string → proc_result) (script_directory : string)
    (w : World) :
  (spawn w version_cmd = NotFound →
   main spawn script_directory w
   = (Raise (OSError FileNotFound "ffmpeg"), add_spawned version_cmd w)
   ∧ exit_status (main spawn script_directory w).1 = 1)
  ∧ (∀ result m,
       spawn w version_cmd = Exited result m →
       let w' := set_fs m (add_spawned version_cmd w) in
       (returncode result ≠ 0 →
        main spawn script_directory w
        = (Raise (SystemExit 1), add_console "Error: FFmpeg not installed." w')
        ∧ exit_status (main spawn script_directory w).1 = 1)
       ∧ (returncode result = 0 →
          main spawn script_directory w
          = main_from_prompt spawn script_directory w')).
Proof.
  split.
  - intros H. by rewrite main_unfold, (check_ffmpeg_not_found _ _ H).
  - intros result m H w'.
    rewrite main_unfold, (check_ffmpeg_exited _ _ _ _ H). fold w'.
    split; intros Hrc.
    + by destruct (Z.eqb_spec (returncode result) 0).
    + by rewrite Hrc.
Qed.

(** Claim C5, amended, on a machine without the media processor and on a
    machine whose media processor cannot run. *)
Lemma preflight_checks_media_processor_witness :
  let w := home [line "https://x/1"; line "V"] in
  (main no_tools "/app" w
   = (Raise (OSError FileNotFound "ffmpeg"), add_spawned version_cmd w)
   ∧ exit_status (main no_tools "/app" w).1 = 1)
  ∧ (main broken_ffmpeg "/app" w
     = (Raise (SystemExit 1),
        add_console "Error: FFmpeg not installed." (add_spawned version_cmd w))
     ∧ exit_status (main broken_ffmpeg "/app" w).1 = 1).
Proof.
  intros w. split.
  - apply (proj1 (preflight_checks_media_processor no_tools "/app" w)).
    reflexivity.
  - apply (proj1 (proj2 (preflight_checks_media_processor broken_ffmpeg "/app" w)
                    (completed 127 "" "ffmpeg: error while loading shared libraries")
                    (fs w) eq_refl)).
    done.
Defined.

(** Claim C6.  For an input that does not begin with [http], ends in
    [.txt] whatever its case, and names a file: when the file has a line
    that is not blank, [process_input] returns the non-blank lines in the
    order of the file, each without its surrounding whitespace; when it
    has none, [process_input] prints its error and exits with status 1. *)
Theorem process_input_list_file (input_str content : string) (w : World) :
  Py.startswith "http" input_str = false →
  Py.endswith ".txt" (Py.lower input_str) = true →
  Os.lookup_node (fs w) (Os.resolve w input_str) = Some (File content) →
  let nonblank :=
    filter (λ l, all_space l = false)
      (Py.readlines (Py.universal_newlines content)) in
  (nonblank ≠ [] →
   process_input input_str w = (Ret (Py.strip <$> nonblank), w)
   ∧ Forall2 trimmed_of nonblank (Py.strip <$> nonblank))
  ∧ (nonblank = [] →
     process_input input_str w
     = (Raise (SystemExit 1), add_console empty_list_message w)).
Proof.
  intros H1 H2 Hfile nonblank.
  assert (input_str ≠ "") as Hne.
  { intros ->. done. }
  rewrite (process_input_list _ _ H1 H2), (read_lines_file _ _ _ Hne Hfile).
  fold nonblank. split.
  - intros Hnb. split.
    + destruct nonblank; done.
    + apply Forall2_fmap_r, Forall_Forall2_diag, Forall_forall.
      intros l _. apply TrimFacts.strip_spec.
  - by intros ->.
Qed.

(** Claim C6 on a list of three URLs with blank lines, and on a file of
    blank lines. *)
Lemma process_input_list_file_witness :
  process_input "urls.txt" (home [])
  = (Ret ["https://x/1"; "https://x/2"; "https://x/3"], home [])
  ∧ process_input "blank.txt" (home [])
    = (Raise (SystemExit 1), add_console empty_list_message (home [])).
Proof.
  split.
  - apply (proj1 (process_input_list_file "urls.txt" url_list (home [])
                    eq_refl eq_refl eq_refl)).
    vm_compute. done.
  - apply (proj2 (process_input_list_file "blank.txt"
                    (String Py.LF "  " +:+ String Py.LF "") (home [])
                    eq_refl eq_refl eq_refl)).
    vm_compute. done.
Defined.

(** Claim C7.  For an input that begins with [http], [process_input]
    returns the one-element list of that input and leaves the world as it
    is: no file is read and no process is started. *)
Theorem process_input_single_url (input_str : string) (w : World) :
  Py.startswith "http" input_str = true →
  process_input input_str w = (Ret [input_str], w).
Proof. apply process_input_url. Qed.

(** Claim C7 on one URL. *)
Lemma process_input_single_url_witness :
  process_input "https://x/1" (home []) = (Ret ["https://x/1"], home []).
Proof. apply process_input_single_url. reflexivity. Defined.

(** Claim C8.  After [create_output_directory] has returned for the
    directory of a base path and a media kind, a second call with the
    same arguments returns as well and changes nothing; the path is the
    same both times, and it names a directory. *)
Theorem create_output_directory_idempotent (base : string) (audio_only : bool)
    (w w1 : World) :
  create_output_directory (output_directory_of base audio_only) w = (Ret tt, w1) →
  create_output_directory (output_directory_of base audio_only) w1 = (Ret tt, w1)
  ∧ Os.lookup_node (fs w1) (Os.resolve w1 (output_directory_of base audio_only))
    = Some Dir.
Proof.
  set (od := output_directory_of base audio_only).
  intros H. apply (proj1 (create_output_directory_Ret od w w1)) in H. split.
  - apply (proj2 (create_output_directory_Ret od w1 w1)).
    by apply (makedirs_idempotent od w).
  - revert H. unfold Os.makedirs. destruct (String.eqb _ ""); [done|].
    destruct (Os.makedirs_from _ _ _ _) as [o m] eqn:E. intros [= -> <-].
    apply (makedirs_from_made _ [] _ _ _ E).
    destruct (Os.resolve w _); [by left|by right].
Qed.

(** Claim C8 for the audio directory below [/app/YouTube_downloads]. *)
Lemma create_output_directory_idempotent_witness :
  let od := output_directory_of "/app/YouTube_downloads" true in
  let w1 := (create_output_directory od (home [])).2 in
  create_output_directory od w1 = (Ret tt, w1)
  ∧ Os.lookup_node (fs w1) (Os.resolve w1 od) = Some Dir.
Proof.
  intros od w1.
  apply (create_output_directory_idempotent "/app/YouTube_downloads" true (home [])).
  vm_compute. reflexivity.
Defined.

(** Claim C9.  The temporary path of [strip_metadata] is the input path
    followed by [_stripped] and the extension of the input; it lies in
    the directory of the input, has the extension of the input, differs
    from the input, and it is the output argument of the command that
    [strip_metadata] starts. *)
Theorem stripped_path_is_sibling
    (spawn : World → list string → proc_result) (file_path : string) (w : World) :
  stripped_path file_path
  = file_path +:+ "_stripped" +:+ (Path.splitext file_path).2
  ∧ Path.dirname (stripped_path file_path) = Path.dirname file_path
  ∧ (Path.splitext (stripped_path file_path)).2 = (Path.splitext file_path).2
  ∧ stripped_path file_path ≠ file_path
  ∧ last (strip_cmd file_path) = Some (stripped_path file_path)
  ∧ spawned (strip_metadata spawn file_path w).2
    = spawned w ++ [strip_cmd file_path].
Proof.
  split_and!.
  - done.
  - apply dirname_stripped.
  - apply splitext_stripped.
  - intros H. pose proof (stripped_path_longer file_path) as Hl.
    rewrite H in Hl. lia.
  - done.
  - apply strip_metadata_spawned.
Qed.

(** Claim C10.  For an input that does not begin with [http] and ends
    in [.txt] whatever its case, when no file exists at that path,
    [process_input] raises an [OSError] and prints nothing; [main] does
    not handle it, so the script ends with that exception after its
    prompt, not with a message and [sys.exit]. *)
Theorem process_input_missing_list_file
    (spawn : World → list string → proc_result) (script_directory : string)
    (input_str : string) (w : World) :
  Py.startswith "http" input_str = false →
  Py.endswith ".txt" (Py.lower input_str) = true →
  Os.lookup_node (fs w) (Os.resolve w input_str) = None →
  let e := OSError (Os.missing_error (fs w) (Os.resolve w input_str)) input_str in
  process_input input_str w = (Raise e, w)
  ∧ is_Exception e = true
  ∧ (∀ w0 result l rest,
       spawn w0 version_cmd = Exited result (fs w) →
       returncode result = 0 →
       cwd w0 = cwd w →
       stdin w0 = l :: rest →
       Py.strip l = input_str →
       ∃ w', main spawn script_directory w0 = (Raise e, w')
             ∧ console w' = console w0 ++ prompt_lines
             ∧ exit_status (main spawn script_directory w0).1 = 1).
Proof.
  intros H1 H2 Hnone e.
  assert (input_str ≠ "") as Hne.
  { intros ->. done. }
  assert (∀ w1, fs w1 = fs w → cwd w1 = cwd w →
                process_input input_str w1 = (Raise e, w1)) as Hraise.
  { intros w1 Hfs Hcwd.
    rewrite (process_input_list _ _ H1 H2), read_lines_missing; [|done|].
    - unfold e, Os.resolve. by rewrite Hfs, Hcwd.
    - unfold Os.resolve. by rewrite Hfs, Hcwd. }
  split; [by apply Hraise|]. split; [done|].
  intros w0 result l rest Hspawn Hrc Hcwd Hin Hstrip.
  rewrite main_unfold, (check_ffmpeg_exited _ _ _ _ Hspawn), Hrc. simpl.
  unfold main_from_prompt, bind, print, readline. simpl. rewrite Hin, Hstrip.
  rewrite Hraise by done. eexists. split; [done|]. split; [|done].
  simpl. by rewrite <-!List.app_assoc.
Qed.

(** Claim C10 on a path at which there is no file. *)
Lemma process_input_missing_list_file_witness :
  process_input "nothere.TXT" (home [])
  = (Raise (OSError FileNotFound "nothere.TXT"), home []).
Proof.
  apply (proj1 (process_input_missing_list_file no_tools "/app" "nothere.TXT"
                  (home []) eq_refl eq_refl eq_refl)).
Defined.

(** ** Further facts and properties of the script

    What the functions do beyond the properties above: the outcomes of
    [process_input] and of the dialogue of [main], the effects of
    [strip_metadata] and of [create_output_directory], the batch, and the
    search for the destination on arbitrary text. *)

Section InputExtras.
Import Py PyFacts TrimFacts.

Lemma startswith_nonempty (p s : string) :
  p ≠ "" → startswith p s = true → s ≠ "".
Proof. intros Hp H ->. destruct p; [done|]. done. Qed.

Lemma process_input_unknown (input_str : string) (w : World) :
  Py.startswith "http" input_str = false →
  Py.endswith ".txt" (Py.lower input_str) = false →
  process_input input_str w
  = (Raise (SystemExit 1), add_console unknown_format_message w).
Proof. intros H1 H2. unfold process_input. by rewrite H1, H2. Qed.

Lemma read_lines_raises (p : string) (w w' : World) (e : exn) :
  Os.read_lines p w = (Raise e, w') → (∃ k, e = OSError k p) ∧ w' = w.
Proof.
  unfold Os.read_lines. destruct (String.eqb p "").
  { intros [= <- <-]. eauto. }
  destruct (Os.lookup_node _ _) as [[c|]|]; intros [= <- <-]; eauto.
Qed.

Lemma read_lines_ext (p : string) (w wa : World) :
  fs wa = fs w → cwd wa = cwd w →
  (Os.read_lines p wa).1 = (Os.read_lines p w).1.
Proof.
  intros Hf Hc. unfold Os.read_lines, Os.resolve. rewrite Hf, Hc.
  destruct (String.eqb p ""); [done|].
  by destruct (Os.lookup_node _ _) as [[c|]|].
Qed.

Lemma read_lines_world (p : string) (w : World) : (Os.read_lines p w).2 = w.
Proof.
  unfold Os.read_lines. destruct (String.eqb p ""); [done|].
  by destruct (Os.lookup_node _ _) as [[c|]|].
Qed.

Lemma readline_eq (w : World) :
  readline w = (Ret (hd "" (stdin w)), set_stdin (tl (stdin w)) w).
Proof. destruct w as [f c l co [|i ins] sp]; reflexivity. Qed.

End InputExtras.

Section MainExtras.

Variable spawn : World → list string → proc_result.
Variable script_directory : string.

Lemma process_input_cases (input_str : string) (w : World) :
  (∃ urls, process_input input_str w = (Ret urls, w) ∧ urls ≠ []
           ∧ Forall (λ u, u ≠ "") urls)
  ∨ (∃ msg, process_input input_str w = (Raise (SystemExit 1), add_console msg w)
            ∧ (msg = unknown_format_message ∨ msg = empty_list_message))
  ∨ (∃ k, process_input input_str w = (Raise (OSError k input_str), w)).
Proof.
  destruct (Py.startswith "http" input_str) eqn:H1.
  - left. exists [input_str]. rewrite process_input_url by done.
    split_and!; try done. constructor; [|done].
    by apply (startswith_nonempty "http").
  - destruct (Py.endswith ".txt" (Py.lower input_str)) eqn:H2.
    + rewrite process_input_list by done.
      destruct (Os.read_lines input_str w) as [[file|e] w'] eqn:E.
      * pose proof (read_lines_world input_str w) as Hw. rewrite E in Hw.
        simpl in Hw. subst w'.
        set (nonblank := filter _ _).
        destruct (Py.strip <$> nonblank) as [|u urls] eqn:E'.
        -- right. left. exists empty_list_message. auto.
        -- left. exists (u :: urls). split_and!; try done.
           rewrite <-E'. apply Forall_fmap, Forall_forall.
           intros l Hl. apply list_elem_of_filter in Hl as [Hl _].
           simpl. intros Hs. apply TrimFacts.strip_nil_iff in Hs. congruence.
      * apply read_lines_raises in E as [[k ->] ->]. right. right. eauto.
    + right. left. rewrite process_input_unknown by done.
      exists unknown_format_message. auto.
Qed.

Lemma process_input_ext (input_str : string) (w wa : World) :
  fs wa = fs w → cwd wa = cwd w →
  (process_input input_str wa).1 = (process_input input_str w).1.
Proof.
  intros Hf Hc. unfold process_input.
  destruct (Py.startswith "http" input_str); [done|].
  destruct (Py.endswith ".txt" (Py.lower input_str)); [|done].
  unfold bind.
  pose proof (read_lines_ext input_str w wa Hf Hc) as H.
  destruct (Os.read_lines input_str wa) as [[file|e] w1],
           (Os.read_lines input_str w) as [[file'|e'] w1']; simpl in H;
    try discriminate; [|simpl; congruence].
  injection H as ->. by destruct (Py.strip <$> _).
Qed.

Lemma main_from_prompt_unfold (w : World) :
  main_from_prompt spawn script_directory w =
  let w1 := set_stdin (tl (stdin w))
              (add_console "Enter the video URL or path to a .txt file:"
                 (add_console "Provide a single URL, or a .txt file containing a list of URLs. Example: `url_list.txt`"
                    (add_console "YouTube Media Downloader using yt-dlp" w))) in
  match process_input (user_input_of w) w1 with
  | (Ret urls, w2) =>
      let w3 := set_stdin (tl (tl (stdin w))) (add_console choice_prompt w2) in
      if String.eqb (Py.lower (Py.strip (hd "" (stdin w2)))) "a"
      then download_all spawn urls
             (Path.join script_directory "YouTube_downloads") true
             (set_stdin (tl (stdin w2)) (add_console choice_prompt w2))
      else if String.eqb (Py.lower (Py.strip (hd "" (stdin w2)))) "v"
      then download_all spawn urls
             (Path.join script_directory "YouTube_downloads") false
             (set_stdin (tl (stdin w2)) (add_console choice_prompt w2))
      else (Raise (SystemExit 1),
            add_console invalid_choice_message
              (set_stdin (tl (stdin w2)) (add_console choice_prompt w2)))
  | (Raise e, w2) => (Raise e, w2)
  end.
Proof.
  unfold main_from_prompt, bind, print. cbv beta iota zeta.
  rewrite readline_eq. cbv beta iota.
  change (stdin (add_console _ (add_console _ (add_console _ w)))) with (stdin w).
  fold (user_input_of w).
  destruct (process_input _ _) as [[urls|e] w2]; [|done].
  rewrite readline_eq. cbv beta iota.
  change (stdin (add_console _ w2)) with (stdin w2).
  destruct (String.eqb _ "a"); [done|].
  destruct (String.eqb _ "v"); done.
Qed.

End MainExtras.

(** Property X1.  Whatever [process_input] is given: when it returns, the
    list is not empty, none of its entries is the empty string, and the
    world is as before (nothing printed, logged, read or started); when it
    ends the program itself, the code of the exit is 1 and exactly one
    line has been printed before, the line of the unknown format or the
    line of the list without URLs; when another exception leaves it,
    nothing has been printed. *)
Theorem process_input_result (input_str : string) (w w' : World)
    (o : outcome (list string)) :
  process_input input_str w = (o, w') →
  match o with
  | Ret urls => w' = w ∧ urls ≠ [] ∧ Forall (λ u, u ≠ "") urls
  | Raise (SystemExit code) =>
      code = 1
      ∧ (w' = add_console unknown_format_message w
         ∨ w' = add_console empty_list_message w)
  | Raise _ => w' = w
  end.
Proof.
  destruct (process_input_cases input_str w)
    as [(urls & -> & H1 & H2)|[(msg & -> & [-> | ->])|[k ->]]];
    intros [= <- <-]; auto.
Qed.

(** Property X1 on the list file of [home] and on its file of blank lines. *)
Lemma process_input_result_witness :
  (home [] = home []
   ∧ ["https://x/1"; "https://x/2"; "https://x/3"] ≠ []
   ∧ Forall (λ u : string, u ≠ "") ["https://x/1"; "https://x/2"; "https://x/3"])
  ∧ (1 = 1
     ∧ (add_console empty_list_message (home [])
        = add_console unknown_format_message (home [])
        ∨ add_console empty_list_message (home [])
          = add_console empty_list_message (home []))).
Proof.
  split.
  - apply (process_input_result "urls.txt" (home []) (home [])
             (Ret ["https://x/1"; "https://x/2"; "https://x/3"])).
    vm_compute. reflexivity.
  - apply (process_input_result "blank.txt" (home [])
             (add_console empty_list_message (home []))
             (Raise (SystemExit 1))).
    vm_compute. reflexivity.
Defined.

Section MainTheorems.

Variable spawn : World → list string → proc_result.
Variable script_directory : string.

Lemma main_checked (w : World) (result : CompletedProcess)
    (m : gmap (list string) node) (urls : list string) :
  spawn w version_cmd = Exited result m →
  returncode result = 0 →
  (process_input (user_input_of w) (set_fs m w)).1 = Ret urls →
  main spawn script_directory w =
  if String.eqb (media_choice_of w) "a"
  then download_all spawn urls
         (Path.join script_directory "YouTube_downloads") true (chosen m w)
  else if String.eqb (media_choice_of w) "v"
  then download_all spawn urls
         (Path.join script_directory "YouTube_downloads") false (chosen m w)
  else (Raise (SystemExit 1), add_console invalid_choice_message (chosen m w)).
Proof.
  intros Hs Hrc Hin. rewrite main_unfold, (check_ffmpeg_exited _ _ _ _ Hs), Hrc.
  change (0 =? 0) with true. cbv beta iota.
  rewrite main_from_prompt_unfold. cbv zeta.
  change (user_input_of (set_fs m (add_spawned version_cmd w)))
    with (user_input_of w).
  change (stdin (set_fs m (add_spawned version_cmd w))) with (stdin w).
  fold (prompted m w).
  assert ((process_input (user_input_of w) (prompted m w)).1 = Ret urls) as H.
  { rewrite <-Hin. by apply process_input_ext. }
  destruct (process_input_cases (user_input_of w) (prompted m w))
    as [(urls' & E & _)|[(msg & E & _)|[k E]]]; rewrite E in H |- *;
    simpl in H; try discriminate.
  injection H as ->.
  change (stdin (prompted m w)) with (tl (stdin w)).
  fold (media_choice_of w). done.
Qed.

(** Property X3.  When the input has been resolved and the answer to the
    second prompt, trimmed and lower-cased, is neither a nor v, the script
    prints the invalid-choice line and exits with status 1: the version
    query is the only process started, the files are as it left them and
    the log is unchanged. *)
Theorem main_invalid_choice (w : World) (result : CompletedProcess)
    (m : gmap (list string) node) (urls : list string) :
  spawn w version_cmd = Exited result m →
  returncode result = 0 →
  (process_input (user_input_of w) (set_fs m w)).1 = Ret urls →
  media_choice_of w ≠ "a" →
  media_choice_of w ≠ "v" →
  let r := main spawn script_directory w in
  r = (Raise (SystemExit 1), add_console invalid_choice_message (chosen m w))
  ∧ spawned r.2 = spawned w ++ [version_cmd]
  ∧ fs r.2 = m
  ∧ log r.2 = log w.
Proof.
  intros Hs Hrc Hin Ha Hv r. unfold r.
  rewrite (main_checked _ _ _ _ Hs Hrc Hin).
  apply String.eqb_neq in Ha, Hv. by rewrite Ha, Hv.
Qed.

(** Property X4.  When the input has been resolved and the answer to the
    second prompt, trimmed and lower-cased, is a or v, the script goes on
    exactly as the loop over the resolved URLs, with the directory
    YouTube_downloads next to the script as base and audio-only chosen by
    the answer a. *)
Theorem main_valid_choice (w : World) (result : CompletedProcess)
    (m : gmap (list string) node) (urls : list string) :
  spawn w version_cmd = Exited result m →
  returncode result = 0 →
  (process_input (user_input_of w) (set_fs m w)).1 = Ret urls →
  media_choice_of w = "a" ∨ media_choice_of w = "v" →
  main spawn script_directory w =
  download_all spawn urls (Path.join script_directory "YouTube_downloads")
    (String.eqb (media_choice_of w) "a") (chosen m w).
Proof.
  intros Hs Hrc Hin Hc.
  rewrite (main_checked _ _ _ _ Hs Hrc Hin).
  by destruct Hc as [-> | ->].
Qed.

Lemma main_raises (w w' : World) (e : exn) :
  main spawn script_directory w = (Raise e, w') →
  e = SystemExit 1
  ∨ e = OSError FileNotFound "ffmpeg"
  ∨ e = OSError FileNotFound "yt-dlp"
  ∨ ∃ k, e = OSError k (user_input_of w).
Proof.
  intros H. rewrite main_unfold in H.
  destruct (spawn w version_cmd) as [|result m] eqn:Hs.
  { rewrite (check_ffmpeg_not_found _ _ Hs) in H. injection H as <- <-. auto. }
  rewrite (check_ffmpeg_exited _ _ _ _ Hs) in H.
  destruct (returncode result =? 0); [|injection H as <- <-; auto].
  rewrite main_from_prompt_unfold in H. cbv zeta in H.
  change (user_input_of (set_fs m (add_spawned version_cmd w)))
    with (user_input_of w) in H.
  match type of H with
  | context [process_input ?s ?w0] =>
      destruct (process_input_cases s w0)
        as [(urls & E & _)|[(msg & E & _)|[k E]]]; rewrite E in H
  end.
  - destruct (String.eqb _ "a").
    { apply download_all_outcome in H as [H|[H|H]];
        [discriminate|injection H as ->; auto..]. }
    destruct (String.eqb _ "v").
    { apply download_all_outcome in H as [H|[H|H]];
        [discriminate|injection H as ->; auto..]. }
    injection H as <- <-. auto.
  - injection H as <- <-. auto.
  - injection H as <- <-. eauto 6.
Qed.

(** Property X5.  Whatever the machine and the input: a failed child
    process never leaves the script as a [CalledProcessError]; every exit
    that the script requests itself carries the code 1; hence the exit
    status is 0 exactly when the script has run to its end, and 1
    otherwise. *)
Theorem main_exit_discipline (w : World) :
  let r := main spawn script_directory w in
  (∀ cmd rc, r.1 ≠ Raise (CalledProcessError cmd rc))
  ∧ (∀ code, r.1 = Raise (SystemExit code) → code = 1)
  ∧ (exit_status r.1 = 0 ↔ r.1 = Ret tt)
  ∧ (exit_status r.1 = 0 ∨ exit_status r.1 = 1).
Proof.
  intros r.
  assert (∀ e, r.1 = Raise e →
               e = SystemExit 1
               ∨ e = OSError FileNotFound "ffmpeg"
               ∨ e = OSError FileNotFound "yt-dlp"
               ∨ ∃ k, e = OSError k (user_input_of w)) as H.
  { intros e He. apply (main_raises w r.2). rewrite <-He.
    apply surjective_pairing. }
  destruct r.1 as [[]|e]; simpl.
  - split_and!; try done. by left.
  - destruct (H e eq_refl) as [->|[->|[->|[k ->]]]];
      (split_and!; [done|by intros ? [= <-]|done|by right]).
Qed.

End MainTheorems.

(** Property X3 on a URL followed by the answer both. *)
Lemma main_invalid_choice_witness :
  let w := home [line "https://x/1"; line "both"] in
  let r := main (machine "" 0 true) "/app" w in
  r = (Raise (SystemExit 1),
       add_console invalid_choice_message (chosen (fs w) w))
  ∧ spawned r.2 = spawned w ++ [version_cmd]
  ∧ fs r.2 = fs w
  ∧ log r.2 = log w.
Proof.
  apply (main_invalid_choice (machine "" 0 true) "/app"
           (home [line "https://x/1"; line "both"])
           (completed 0 "ffmpeg version 6.0" "") _ ["https://x/1"]);
    vm_compute; (reflexivity || discriminate).
Defined.

(** Property X4 on the list file of [home] and the answer A between blanks. *)
Lemma main_valid_choice_witness :
  let w := home [line "urls.txt"; line " A "] in
  main (machine "" 0 true) "/app" w =
  download_all (machine "" 0 true)
    ["https://x/1"; "https://x/2"; "https://x/3"]
    "/app/YouTube_downloads" true (chosen (fs w) w).
Proof.
  apply (main_valid_choice (machine "" 0 true) "/app"
           (home [line "urls.txt"; line " A "])
           (completed 0 "ffmpeg version 6.0" "") _
           ["https://x/1"; "https://x/2"; "https://x/3"]);
    try (vm_compute; reflexivity).
  left. vm_compute. reflexivity.
Defined.

Section ResolveFacts.
Import Py PyFacts PathFacts.

Lemma split_on_snoc (c : ascii) (s : string) :
  ∃ init lst, Os.split_on c s = init ++ [lst].
Proof.
  induction s as [|a s (init & lst & IH)]; simpl.
  - by exists [], "".
  - destruct (Ascii.eqb a c).
    + exists ("" :: init), lst. by rewrite IH.
    + rewrite IH. destruct init as [|i init]; simpl.
      * by exists [], (String a lst).
      * by exists (String a i :: init), lst.
Qed.

Lemma split_on_none (c : ascii) (s : string) :
  rfind c s = -1 → Os.split_on c s = [s].
Proof.
  induction s as [|a s IH]; [done|]. simpl.
  pose proof (rfind_range c s).
  destruct (Z.leb_spec 0 (rfind c s)); [lia|].
  destruct (Ascii.eqb a c); [lia|]. intros _.
  rewrite IH by lia. done.
Qed.

Lemma split_on_app (c : ascii) (p s : string) (init : list string)
    (lst : string) :
  rfind c s = -1 →
  Os.split_on c p = init ++ [lst] →
  Os.split_on c (p +:+ s) = init ++ [lst +:+ s].
Proof.
  intros Hs. revert init lst. induction p as [|a p IH]; intros init lst.
  - rewrite PyFacts.app_nil_l, (split_on_none c s Hs). simpl.
    intros H. destruct init as [|i init]; simpl in H.
    + injection H as <-. by rewrite PyFacts.app_nil_l.
    + injection H as _ H. destruct init; discriminate.
  - rewrite app_cons. simpl.
    destruct (split_on_snoc c p) as (init' & lst' & E).
    rewrite (IH _ _ E), E.
    destruct (Ascii.eqb a c).
    + destruct init as [|i init]; simpl.
      { destruct init'; discriminate. }
      intros [= <- H]. apply app_inj_tail in H as [-> ->]. done.
    + destruct init' as [|i' init']; simpl.
      * intros H. destruct init as [|i init]; simpl in H.
        -- injection H as <-. by rewrite app_cons.
        -- injection H as _ H. destruct init; discriminate.
      * destruct init as [|i init]; simpl.
        { intros [= _ H]. destruct init'; discriminate. }
        intros [= <- H]. apply app_inj_tail in H as [-> ->]. done.
Qed.

Lemma step_name (acc : list string) (c : string) :
  (2 < String.length c)%nat → Os.step acc c = acc ++ [c].
Proof.
  intros H. unfold Os.step.
  destruct (String.eqb_spec c "") as [->|_]; [simpl in H; lia|].
  destruct (String.eqb_spec c ".") as [->|_]; [simpl in H; lia|].
  destruct (String.eqb_spec c "..") as [->|_]; [simpl in H; lia|].
  done.
Qed.

Lemma length_step (acc : list string) (c : string) :
  Os.step acc c = acc ∨ Os.step acc c = removelast acc
  ∨ Os.step acc c = acc ++ [c].
Proof.
  unfold Os.step. destruct (_ || _); [auto|]. destruct (String.eqb c ".."); auto.
Qed.

Lemma startswith_sep_app (p s : string) :
  s ≠ "" → startswith "/" s = false →
  startswith "/" (p +:+ s) = startswith "/" p.
Proof.
  intros Hs Hn. destruct p as [|a p].
  - by rewrite app_nil_l.
  - rewrite app_cons. unfold startswith.
    assert (∀ x, String.prefix "/" (String a x)
                 = if Ascii.ascii_dec "/" a then true else false) as E.
    { intros x. change (String.prefix "/" (String a x))
        with (if Ascii.ascii_dec "/" a then String.prefix "" x else false).
      destruct (Ascii.ascii_dec "/" a); [|done]. by destruct x. }
    by rewrite !E.
Qed.

(** Resolving a path with a suffix appended to its last component. *)
Lemma resolve_app (w : World) (p s : string) :
  rfind Path.sep s = -1 → (2 < String.length s)%nat →
  ∃ acc lst,
    Os.resolve w (p +:+ s) = acc ++ [lst +:+ s]
    ∧ Os.resolve w p = Os.step acc lst.
Proof.
  intros Hs Hl.
  destruct (split_on_snoc Path.sep p) as (init & lst & E).
  unfold Os.resolve. rewrite (split_on_app _ _ _ _ _ Hs E), E.
  rewrite startswith_sep_app.
  2:{ intros ->. simpl in Hl. lia. }
  2:{ destruct s as [|a s]; [done|]. unfold startswith.
      change (String.prefix "/" (String a s))
        with (if Ascii.ascii_dec "/" a then String.prefix "" s else false).
      simpl in Hs. pose proof (rfind_range Path.sep s).
      destruct (Z.leb_spec 0 (rfind Path.sep s)); [lia|].
      destruct (Ascii.ascii_dec "/" a) as [E'|]; [|done].
      rewrite <- E' in Hs. simpl in Hs. lia. }
  rewrite !fold_left_app. simpl.
  eexists _, lst. split; [|done].
  apply step_name. rewrite length_app. lia.
Qed.

Lemma stripped_suffix (p : string) :
  let s := "_stripped" +:+ (Path.splitext p).2 in
  stripped_path p = p +:+ s ∧ rfind Path.sep s = -1
  ∧ (2 < String.length s)%nat.
Proof.
  intros s. split_and!.
  - done.
  - unfold s. rewrite rfind_app.
    destruct (splitext_ext p) as [[He _]|(r & He & _ & Hr)]; rewrite He, ?Hr; done.
  - unfold s. rewrite length_app. simpl. lia.
Qed.

Lemma resolve_stripped (w : World) (p : string) :
  Os.resolve w (stripped_path p) ≠ Os.resolve w p
  ∧ Os.resolve w (stripped_path p) ≠ [].
Proof.
  destruct (stripped_suffix p) as (-> & Hs & Hl).
  destruct (resolve_app w p _ Hs Hl) as (acc & lst & -> & ->).
  split; [|by destruct acc].
  intros H. apply (f_equal length) in H as H'.
  rewrite List.length_app in H'. simpl in H'.
  destruct (length_step acc lst) as [E|[E|E]]; rewrite E in H, H'.
  - lia.
  - destruct acc as [|a acc _] using rev_ind; [simpl in H'; lia|].
    rewrite removelast_last, List.length_app in H'. simpl in H'. lia.
  - apply app_inj_tail in H as [_ H].
    apply (f_equal String.length) in H. rewrite PyFacts.length_app in H. lia.
Qed.

End ResolveFacts.

Section StripExtras.

Variable spawn : World → list string → proc_result.

Lemma replace_temp_file (p c : string) (w : World) :
  let ks := Os.resolve w (stripped_path p) in
  let kd := Os.resolve w p in
  p ≠ "" →
  fs w !! ks = Some (File c) →
  Os.lookup_node (fs w) (removelast kd) = Some Dir →
  Os.lookup_node (fs w) kd ≠ Some Dir →
  Os.replace (stripped_path p) p w
  = (Ret tt, set_fs (<[kd := File c]> (delete ks (fs w))) w).
Proof.
  intros ks kd Hp Hs Hd Hn. unfold Os.replace. cbv zeta.
  fold ks kd.
  destruct (String.eqb_spec (stripped_path p) "") as [E|_];
    [by apply stripped_path_nonempty in E|].
  destruct (String.eqb_spec p "") as [E|_]; [done|]. cbv iota. simpl orb.
  destruct (resolve_stripped w p) as [Hne Hnil]. fold ks kd in Hne, Hnil.
  assert (Os.lookup_node (fs w) ks = Some (File c)) as ->.
  { unfold Os.lookup_node. by destruct ks. }
  rewrite Hd. rewrite bool_decide_false by done.
  destruct (Os.lookup_node (fs w) kd) as [[?|]|]; done.
Qed.

Lemma replace_temp_missing (p : string) (w : World) :
  let ks := Os.resolve w (stripped_path p) in
  p ≠ "" →
  fs w !! ks = None →
  Os.replace (stripped_path p) p w
  = (Raise (OSError (Os.missing_error (fs w) ks) (stripped_path p)), w).
Proof.
  intros ks Hp Hs. unfold Os.replace. cbv zeta. fold ks.
  destruct (String.eqb_spec (stripped_path p) "") as [E|_];
    [by apply stripped_path_nonempty in E|].
  destruct (String.eqb_spec p "") as [E|_]; [done|]. cbv iota. simpl orb.
  destruct (resolve_stripped w p) as [_ Hnil]. fold ks in Hnil.
  assert (Os.lookup_node (fs w) ks = None) as ->; [|done].
  unfold Os.lookup_node. by destruct ks.
Qed.

Lemma replace_step_logging (p : string) (l : level) (s : string) (w : World) :
  ∃ w' entry,
    replace_step p (logging l s) w = (Ret tt, w')
    ∧ console w' = console w ∧ stdin w' = stdin w ∧ cwd w' = cwd w
    ∧ spawned w' = spawned w ∧ log w' = log w ++ [entry].
Proof.
  unfold replace_step.
  pose proof (replace_keeps (stripped_path p) p w) as Hk. cbv zeta in Hk.
  destruct (Os.replace (stripped_path p) p w) as [[[]|e] w1];
    simpl in Hk; destruct Hk as (Hc & Hl & Hco & Hi & Hsp).
  - exists (add_log l s w1), (l, s). simpl. rewrite Hl. by split_and!.
  - exists (add_log ERROR (strip_error_message p e) w1),
      (ERROR, strip_error_message p e). simpl. rewrite Hl. by split_and!.
Qed.

Lemma replace_step_ret (p : string) (w : World) :
  ∃ w' more,
    replace_step p (ret tt) w = (Ret tt, w')
    ∧ console w' = console w ∧ stdin w' = stdin w ∧ cwd w' = cwd w
    ∧ spawned w' = spawned w ∧ log w' = log w ++ more.
Proof.
  unfold replace_step.
  pose proof (replace_keeps (stripped_path p) p w) as Hk. cbv zeta in Hk.
  destruct (Os.replace (stripped_path p) p w) as [[[]|e] w1];
    simpl in Hk; destruct Hk as (Hc & Hl & Hco & Hi & Hsp).
  - exists w1, []. rewrite List.app_nil_r. by split_and!.
  - exists (add_log ERROR (strip_error_message p e) w1),
      [(ERROR, strip_error_message p e)]. simpl. rewrite Hl. by split_and!.
Qed.

(** Property X6.  [strip_metadata] never raises: for every file path,
    machine and world it returns, having started exactly one process (its
    ffmpeg command), written nothing to the console, read nothing from the
    input, kept the working directory, and added at least one entry to the
    log. *)
Theorem strip_metadata_quiet (p : string) (w : World) :
  ∃ w' entry more,
    strip_metadata spawn p w = (Ret tt, w')
    ∧ console w' = console w ∧ stdin w' = stdin w ∧ cwd w' = cwd w
    ∧ spawned w' = spawned w ++ [strip_cmd p]
    ∧ log w' = log w ++ entry :: more.
Proof.
  destruct (spawn w (strip_cmd p)) as [|result m] eqn:Hs.
  { rewrite (strip_metadata_not_found _ _ _ Hs). eexists _, _, []; by split_and!. }
  destruct (Z.eq_dec (returncode result) 0) as [Hrc|Hrc].
  - rewrite (strip_metadata_exit_zero _ _ _ _ _ Hs Hrc).
    destruct (replace_step_logging p INFO
                ("Metadata successfully stripped for: " +:+ p)
                (set_fs m (add_spawned (strip_cmd p) w)))
      as (w' & entry & -> & ? & ? & ? & ? & ?).
    exists w', entry, []. by split_and!.
  - rewrite (strip_metadata_exit_nonzero _ _ _ _ _ Hs Hrc). cbv zeta.
    unfold Os.path_exists.
    destruct (_ && _).
    + destruct (replace_step_ret p
                  (add_log WARNING (warning_message result)
                     (set_fs m (add_spawned (strip_cmd p) w))))
        as (w' & more & -> & ? & ? & ? & ? & Hl).
      exists w', (WARNING, warning_message result), more.
      rewrite Hl. simpl. rewrite <-List.app_assoc. by split_and!.
    + eexists _, _, []; by split_and!.
Qed.

Lemma strip_metadata_replaces (p c : string) (w : World)
    (result : CompletedProcess) (m : gmap (list string) node) :
  let ks := Os.resolve w (stripped_path p) in
  let kd := Os.resolve w p in
  spawn w (strip_cmd p) = Exited result m →
  returncode result = 0 →
  p ≠ "" →
  m !! ks = Some (File c) →
  Os.lookup_node m (removelast kd) = Some Dir →
  Os.lookup_node m kd ≠ Some Dir →
  strip_metadata spawn p w
  = (Ret tt,
     add_log INFO (stripped_message p)
       (set_fs (<[kd := File c]> (delete ks m))
          (add_spawned (strip_cmd p) w))).
Proof.
  intros ks kd Hs Hrc Hp Hc Hd Hn.
  rewrite (strip_metadata_exit_zero _ _ _ _ _ Hs Hrc). unfold replace_step.
  by rewrite (replace_temp_file p c (set_fs m (add_spawned (strip_cmd p) w))).
Qed.

(** Property X8.  When ffmpeg exits with status 0 and has left its output
    at the temporary path, and the file path is not a directory and lies
    in an existing directory: afterwards the file path holds the output of
    ffmpeg, the temporary entry is gone, every other entry is as ffmpeg
    left it, the log has one more entry, the INFO line of success, and the
    console is untouched. *)
Theorem strip_metadata_success (p c : string) (w : World)
    (result : CompletedProcess) (m : gmap (list string) node) :
  let ks := Os.resolve w (stripped_path p) in
  let kd := Os.resolve w p in
  spawn w (strip_cmd p) = Exited result m →
  returncode result = 0 →
  p ≠ "" →
  m !! ks = Some (File c) →
  Os.lookup_node m (removelast kd) = Some Dir →
  Os.lookup_node m kd ≠ Some Dir →
  ∃ w',
    strip_metadata spawn p w = (Ret tt, w')
    ∧ Os.lookup_node (fs w') kd = Some (File c)
    ∧ Os.lookup_node (fs w') ks = None
    ∧ (∀ k, k ≠ ks → k ≠ kd → fs w' !! k = m !! k)
    ∧ log w' = log w ++ [(INFO, stripped_message p)]
    ∧ console w' = console w.
Proof.
  intros ks kd Hs Hrc Hp Hc Hd Hn.
  rewrite (strip_metadata_replaces p c w result m Hs Hrc Hp Hc Hd Hn).
  fold ks kd. eexists. split; [done|]. simpl.
  destruct (resolve_stripped w p) as [Hne Hnil]. fold ks kd in Hne, Hnil.
  assert (kd ≠ []) as Hkd by (by intros E; rewrite E in Hn).
  split_and!; try done.
  - unfold Os.lookup_node. destruct kd; [done|]. by rewrite lookup_insert_eq.
  - unfold Os.lookup_node. destruct ks; [done|].
    rewrite lookup_insert_ne by done. by rewrite lookup_delete_eq.
  - intros k H1 H2. rewrite lookup_insert_ne by done.
    by rewrite lookup_delete_ne.
Qed.

(** Property X9.  When ffmpeg exits with status 0 but there is nothing
    at the temporary path, [os.replace] fails inside the [try]:
    [strip_metadata] returns, the only trace is one ERROR entry in the
    log (no success is logged), and the files are as ffmpeg left them.
    When the failure is that of a missing file (no regular file stands in
    the place of a directory on the way to the temporary path), the entry
    reads File not found for metadata stripping, followed by the file
    path. *)
Theorem strip_metadata_output_missing (p : string) (w : World)
    (result : CompletedProcess) (m : gmap (list string) node) :
  let ks := Os.resolve w (stripped_path p) in
  spawn w (strip_cmd p) = Exited result m →
  returncode result = 0 →
  m !! ks = None →
  ∃ msg,
    strip_metadata spawn p w
    = (Ret tt, add_log ERROR msg (set_fs m (add_spawned (strip_cmd p) w)))
    ∧ (Os.missing_error m ks = FileNotFound →
       msg = "File not found for metadata stripping: " +:+ p).
Proof.
  intros ks Hs Hrc Hc.
  rewrite (strip_metadata_exit_zero _ _ _ _ _ Hs Hrc). unfold replace_step.
  destruct (decide (p = "")) as [->|Hp].
  - eexists. split; [reflexivity|]. done.
  - rewrite (replace_temp_missing p (set_fs m (add_spawned (strip_cmd p) w)))
      by done.
    change (fs (set_fs m _)) with m.
    change (Os.resolve (set_fs m _) (stripped_path p)) with ks.
    eexists. split; [reflexivity|].
    intros He. unfold strip_error_message. by rewrite He.
Qed.

End StripExtras.

(** Property X8 on the downloaded file of [with_video]. *)
Lemma strip_metadata_success_witness :
  let ks := Os.resolve with_video (stripped_path video_path) in
  let kd := Os.resolve with_video video_path in
  let m := <[ks := File "stripped media"]> (fs with_video) in
  ∃ w',
    strip_metadata (machine "" 0 true) video_path with_video = (Ret tt, w')
    ∧ Os.lookup_node (fs w') kd = Some (File "stripped media")
    ∧ Os.lookup_node (fs w') ks = None
    ∧ (∀ k, k ≠ ks → k ≠ kd → fs w' !! k = m !! k)
    ∧ log w' = log with_video ++ [(INFO, stripped_message video_path)]
    ∧ console w' = console with_video.
Proof.
  apply (strip_metadata_success (machine "" 0 true) video_path
           "stripped media" with_video (completed 0 "" ""));
    vm_compute; (reflexivity || discriminate).
Defined.

(** Property X9 on a media processor that exits with 0 and writes nothing. *)
Lemma strip_metadata_output_missing_witness :
  ∃ msg,
    strip_metadata (machine "" 0 false) video_path with_video
    = (Ret tt,
       add_log ERROR msg
         (set_fs (fs with_video) (add_spawned (strip_cmd video_path) with_video)))
    ∧ (Os.missing_error (fs with_video)
         (Os.resolve with_video (stripped_path video_path)) = FileNotFound →
       msg = "File not found for metadata stripping: " +:+ video_path).
Proof.
  apply (strip_metadata_output_missing (machine "" 0 false) video_path
           with_video (completed 0 "" ""));
    vm_compute; reflexivity.
Defined.

Section MakedirsExtras.

Lemma makedirs_from_preserves (name : string) (pre rest k : list string)
    (m : gmap (list string) node) (n : node) :
  m !! k = Some n →
  (Os.makedirs_from name pre rest m).2 !! k = Some n.
Proof.
  revert pre m. induction rest as [|c rest IH]; intros pre m Hk; simpl; [done|].
  destruct (m !! (pre ++ [c])) as [[|]|] eqn:E; [done|by apply IH|].
  apply IH. rewrite lookup_insert_ne; [done|]. congruence.
Qed.

Lemma makedirs_from_adds_dirs (name : string) (pre rest k : list string)
    (m : gmap (list string) node) (n : node) :
  (Os.makedirs_from name pre rest m).2 !! k = Some n →
  m !! k = Some n ∨ (m !! k = None ∧ n = Dir).
Proof.
  revert pre m. induction rest as [|c rest IH]; intros pre m; simpl; [auto|].
  destruct (m !! (pre ++ [c])) as [[|]|] eqn:E; [auto|by apply IH|].
  intros H. apply IH in H.
  destruct (decide (pre ++ [c] = k)) as [<-|Hne].
  - rewrite lookup_insert_eq in H. destruct H as [[= <-]|[? _]]; [auto|done].
  - by rewrite lookup_insert_ne in H.
Qed.

Lemma create_output_directory_eq (od : string) (w : World) :
  create_output_directory od w
  = match Os.makedirs od w with
    | (Ret _, w1) => (Ret tt, w1)
    | (Raise e, w1) =>
        (Raise (SystemExit 1), add_console (directory_error_message e) w1)
    end.
Proof.
  unfold create_output_directory, try_except.
  destruct (Os.makedirs od w) as [[[]|e] w1] eqn:E; [done|].
  apply makedirs_raises in E. by rewrite E.
Qed.

Lemma makedirs_fs (name : string) (w : World) :
  let r := Os.makedirs name w in
  (∀ k n, fs w !! k = Some n → fs r.2 !! k = Some n)
  ∧ (∀ k n, fs r.2 !! k = Some n → fs w !! k = Some n ∨ (fs w !! k = None ∧ n = Dir))
  ∧ (r.1 = Ret tt → Os.lookup_node (fs r.2) (Os.resolve w name) = Some Dir).
Proof.
  unfold Os.makedirs. destruct (String.eqb name ""); [simpl; split_and!; [auto|auto|done]|].
  destruct (Os.makedirs_from name [] (Os.resolve w name) (fs w)) as [o m] eqn:E.
  simpl. split_and!.
  - intros k n Hk.
    pose proof (makedirs_from_preserves name [] (Os.resolve w name) k _ n Hk) as H.
    by rewrite E in H.
  - intros k n Hk.
    pose proof (makedirs_from_adds_dirs name [] (Os.resolve w name) k (fs w) n) as H.
    rewrite E in H. by apply H.
  - intros ->.
    apply (makedirs_from_made name [] (Os.resolve w name) (fs w) m E).
    destruct (Os.resolve w name); [by left|by right].
Qed.

End MakedirsExtras.

(** Property X10.  [create_output_directory] never removes or changes an
    entry of the file system, and every entry it adds is a directory,
    whether it returns or not; it leaves the log, the input and the
    process history alone, and when it returns the directory exists and
    the console is untouched. *)
Theorem create_output_directory_preserves (od : string) (w : World) :
  let r := create_output_directory od w in
  (∀ k n, fs w !! k = Some n → fs r.2 !! k = Some n)
  ∧ (∀ k n, fs r.2 !! k = Some n →
            fs w !! k = Some n ∨ (fs w !! k = None ∧ n = Dir))
  ∧ (r.1 = Ret tt →
     Os.lookup_node (fs r.2) (Os.resolve w od) = Some Dir
     ∧ console r.2 = console w)
  ∧ log r.2 = log w ∧ spawned r.2 = spawned w ∧ stdin r.2 = stdin w.
Proof.
  intros r. unfold r. rewrite create_output_directory_eq.
  pose proof (makedirs_fs od w) as (H1 & H2 & H3). cbv zeta in *.
  destruct (Os.makedirs od w) as [[[]|e] w1] eqn:E; simpl in *;
    apply makedirs_world in E; rewrite E; simpl; split_and!; auto.
  done.
Qed.

Section DownloadExtras.

Variable spawn : World → list string → proc_result.

Lemma download_youtube_media_spawned (url base : string) (audio_only : bool)
    (w w' : World) :
  let cmd := download_cmd url (output_directory_of base audio_only) audio_only in
  download_youtube_media spawn url base audio_only w = (Ret tt, w') →
  spawned w' = spawned w ++ [cmd]
  ∨ ∃ p, spawned w' = spawned w ++ [cmd; strip_cmd p].
Proof.
  intros cmd. unfold download_youtube_media, try_except, bind.
  rewrite create_output_directory_eq.
  destruct (Os.makedirs _ w) as [[[]|e1] w1] eqn:Hdir; [|simpl; discriminate].
  apply makedirs_world in Hdir. apply (f_equal spawned) in Hdir. simpl in Hdir.
  simpl. unfold subprocess_run. fold cmd.
  destruct (spawn _ _) as [|result m]; [simpl; discriminate|].
  destruct (Z.eqb_spec (returncode result) 0) as [Hrc|Hrc]; simpl.
  - destruct (Re.search (stdout result)) as [path|]; simpl.
    + match goal with
      | |- context [strip_metadata spawn path ?w0] =>
          pose proof (strip_metadata_spawned spawn path w0) as Hsp;
          destruct (strip_metadata_returns spawn path w0) as (w3 & Hw3)
      end.
      rewrite Hw3 in Hsp |- *. simpl in Hsp |- *. intros [= <-].
      right. exists path. simpl. rewrite Hsp, Hdir.
      by rewrite <-List.app_assoc.
    + intros [= <-]. left. simpl. by rewrite Hdir.
  - intros [= <-]. left. simpl. by rewrite Hdir.
Qed.

(** Property X13.  When the loop over the URLs returns, yt-dlp has been
    started exactly once per URL, in the order of the list and with the
    command of that URL, and at most two processes per URL have been
    started in all. *)
Theorem download_all_runs (urls : list string) (base : string)
    (audio_only : bool) (w w' : World) :
  download_all spawn urls base audio_only w = (Ret tt, w') →
  downloads (spawned w')
  = downloads (spawned w)
    ++ ((λ url, download_cmd url (output_directory_of base audio_only)
                  audio_only) <$> urls)
  ∧ (length (spawned w') ≤ length (spawned w) + 2 * length urls)%nat.
Proof.
  revert w. induction urls as [|url urls IH]; intros w.
  - intros [= <-]. rewrite List.app_nil_r. simpl. split; [done|lia].
  - destruct (download_youtube_media spawn url base audio_only w)
      as [[[]|e] w1] eqn:E.
    2:{ unfold download_all. simpl. unfold bind. rewrite E. discriminate. }
    rewrite (download_all_cons _ _ _ _ _ _ _ E). intros H.
    apply IH in H as [H1 H2]. rewrite H1. clear IH H1.
    apply download_youtube_media_spawned in E as [E|[p E]];
      rewrite E in H2 |- *; unfold downloads; rewrite filter_app.
    + rewrite filter_cons_True by done. rewrite filter_nil.
      rewrite List.length_app in H2. simpl in *.
      split; [by rewrite <-List.app_assoc|lia].
    + rewrite filter_cons_True by done. rewrite filter_cons_False by done.
      rewrite filter_nil.
      rewrite List.length_app in H2. simpl in *.
      split; [by rewrite <-List.app_assoc|lia].
Qed.

(** Property X11.  A directory that cannot be created is fatal for the
    whole batch: the [SystemExit(1)] raised by [create_output_directory]
    passes through [download_youtube_media], so the loop ends at the first
    URL with one line on the console, no process started and no log
    entry. *)
Theorem output_directory_failure_aborts (url : string) (rest : list string)
    (base : string) (audio_only : bool) (w w1 : World) (e : exn) :
  Os.makedirs (output_directory_of base audio_only) w = (Raise e, w1) →
  download_all spawn (url :: rest) base audio_only w
  = (Raise (SystemExit 1), add_console (directory_error_message e) w1)
  ∧ spawned w1 = spawned w ∧ log w1 = log w.
Proof.
  intros H. unfold download_all. simpl.
  unfold bind, download_youtube_media, try_except, bind.
  rewrite create_output_directory_eq, H. simpl.
  apply makedirs_world in H. rewrite H. done.
Qed.

(** Property X12.  When yt-dlp cannot be started, the
    [FileNotFoundError] is not caught by [download_youtube_media]: the loop
    ends at the first URL with that exception, after the log entry of the
    start, and nothing is printed for the user. *)
Theorem downloader_missing_aborts (url : string) (rest : list string)
    (base : string) (audio_only : bool) (w w1 : World) :
  let od := output_directory_of base audio_only in
  let cmd := download_cmd url od audio_only in
  Os.makedirs od w = (Ret tt, w1) →
  spawn (add_log INFO (started_message url od) w1) cmd = NotFound →
  download_all spawn (url :: rest) base audio_only w
  = (Raise (OSError FileNotFound "yt-dlp"),
     add_spawned cmd (add_log INFO (started_message url od) w1))
  ∧ console w1 = console w.
Proof.
  intros od cmd H Hs. unfold download_all. simpl.
  unfold bind, download_youtube_media, try_except, bind.
  fold od. rewrite create_output_directory_eq, H. simpl.
  unfold subprocess_run. fold cmd. unfold started_message in Hs. rewrite Hs.
  simpl. apply makedirs_world in H. rewrite H. done.
Qed.

End DownloadExtras.

(** Property X13 on two URLs. *)
Lemma download_all_runs_witness :
  let urls := ["https://x/1"; "https://x/2"] in
  let w' := (download_all (machine "" 0 true) urls "/app/YouTube_downloads"
               false (home [])).2 in
  downloads (spawned w')
  = downloads (spawned (home []))
    ++ ((λ url, download_cmd url
                  (output_directory_of "/app/YouTube_downloads" false) false)
          <$> urls)
  ∧ (length (spawned w') ≤ length (spawned (home [])) + 2 * length urls)%nat.
Proof.
  apply (download_all_runs (machine "" 0 true) ["https://x/1"; "https://x/2"]
           "/app/YouTube_downloads" false (home [])).
  vm_compute. reflexivity.
Defined.

(** Property X11 on a regular file in the place of the download directory. *)
Lemma output_directory_failure_aborts_witness :
  let e := OSError NotADirectory "/app/YouTube_downloads/Video" in
  download_all (machine "" 0 true) ["https://x/1"; "https://x/2"]
    "/app/YouTube_downloads" false blocked
  = (Raise (SystemExit 1), add_console (directory_error_message e) blocked)
  ∧ spawned blocked = spawned blocked ∧ log blocked = log blocked.
Proof.
  apply (output_directory_failure_aborts (machine "" 0 true) "https://x/1"
           ["https://x/2"] "/app/YouTube_downloads" false blocked blocked).
  vm_compute. reflexivity.
Defined.

(** Property X12 on a machine without yt-dlp. *)
Lemma downloader_missing_aborts_witness :
  let od := output_directory_of "/app/YouTube_downloads" true in
  let w1 := (Os.makedirs od (home [])).2 in
  download_all no_downloader ["https://x/1"; "https://x/2"]
    "/app/YouTube_downloads" true (home [])
  = (Raise (OSError FileNotFound "yt-dlp"),
     add_spawned (download_cmd "https://x/1" od true)
       (add_log INFO (started_message "https://x/1" od) w1))
  ∧ console w1 = console (home []).
Proof.
  apply (downloader_missing_aborts no_downloader "https://x/1"
           ["https://x/2"] "/app/YouTube_downloads" true (home []));
    vm_compute; reflexivity.
Defined.

Section SearchExtras.
Import PyFacts ReFacts.

Lemma dot_run_spec (t : string) :
  ∃ post, t = Re.dot_run t +:+ post ∧ has_LF (Re.dot_run t) = false
          ∧ line_end post = true.
Proof.
  induction t as [|a t (post & Heq & Hno & Hend)]; simpl.
  - by exists "".
  - destruct (Py.is_LF a) eqn:Ha.
    + exists (String a t). rewrite app_nil_l. by simpl.
    + exists post. rewrite app_cons, <-Heq. simpl. by rewrite Ha.
Qed.

Lemma dot_run_nil (t : string) : Re.dot_run t = "" ↔ line_end t = true.
Proof. destruct t as [|a t]; simpl; [done|]. by destruct (Py.is_LF a). Qed.

Lemma search_cases (s : string) :
  match Re.search s with
  | Some g =>
      ∃ pre post,
        s = pre +:+ Re.DESTINATION +:+ g +:+ post
        ∧ g ≠ "" ∧ has_LF g = false ∧ line_end post = true
        ∧ ∀ pre' t, s = pre' +:+ Re.DESTINATION +:+ t →
                    (String.length pre' < String.length pre)%nat →
                    line_end t = true
  | None => ∀ pre t, s = pre +:+ Re.DESTINATION +:+ t → line_end t = true
  end.
Proof.
  induction s as [|a s IH].
  - simpl. intros [|? ?] t; [|by rewrite app_cons].
    rewrite app_nil_l. unfold Re.DESTINATION. by rewrite app_cons.
  - change (Re.search (String a s))
      with (match Re.match_here (String a s) with
            | Some g => Some g
            | None => Re.search s
            end).
    destruct (Re.match_here (String a s)) as [g|] eqn:E.
    + apply match_here_Some in E as (rest & Hs & Hg & Hne).
      destruct (dot_run_spec rest) as (post & Hr & Hno & Hend).
      rewrite Hg in Hr, Hno.
      exists "", post. rewrite app_nil_l, <-Hr. split_and!; try done.
      intros pre' t _ Hl. simpl in Hl. lia.
    + assert (∀ t, String a s = Re.DESTINATION +:+ t → line_end t = true) as H0.
      { intros t Ht. apply dot_run_nil. by apply (proj1 (match_here_None _) E). }
      destruct (Re.search s) as [g|].
      * destruct IH as (pre & post & Hs & Hne & Hno & Hend & Hleft).
        exists (String a pre), post. rewrite app_cons, <-Hs.
        split_and!; try done.
        intros [|a' pre'] t Ht Hl.
        -- rewrite app_nil_l in Ht. by apply H0.
        -- rewrite app_cons in Ht. injection Ht as _ Ht.
           apply (Hleft pre' t Ht). simpl in Hl. lia.
      * intros [|a' pre'] t Ht.
        -- rewrite app_nil_l in Ht. by apply H0.
        -- rewrite app_cons in Ht. injection Ht as _ Ht. by apply (IH pre' t).
Qed.

End SearchExtras.

(** Property X15.  On any text, when the search for the destination
    pattern answers a path, the path is not empty, holds no line feed,
    stands directly after the announcement text and runs to the end of its
    line; and it is the leftmost match: every earlier occurrence of the
    announcement text is followed directly by the end of its line. *)
Theorem search_finds_first_announcement (s g : string) :
  Re.search s = Some g →
  ∃ pre post,
    s = pre +:+ Re.DESTINATION +:+ g +:+ post
    ∧ g ≠ "" ∧ has_LF g = false ∧ line_end post = true
    ∧ ∀ pre' t, s = pre' +:+ Re.DESTINATION +:+ t →
                (String.length pre' < String.length pre)%nat →
                line_end t = true.
Proof. intros H. pose proof (search_cases s) as Hc. by rewrite H in Hc. Qed.

(** Property X16.  On any text, the search for the destination pattern
    answers nothing exactly when every occurrence of the announcement text
    is followed directly by a line feed or by the end of the text. *)
Theorem search_none_iff (s : string) :
  Re.search s = None
  ↔ ∀ pre t, s = pre +:+ Re.DESTINATION +:+ t → line_end t = true.
Proof.
  pose proof (search_cases s) as Hc. split.
  - intros H. by rewrite H in Hc.
  - intros H. destruct (Re.search s) as [g|]; [|done].
    destruct Hc as (pre & post & Hs & Hne & Hno & _).
    specialize (H pre (g +:+ post) Hs).
    destruct g as [|b g]; [done|].
    rewrite PyFacts.app_cons in H. simpl in H, Hno.
    rewrite H in Hno. done.
Qed.

(** Property X15 on an output of three lines. *)
Lemma search_finds_first_announcement_witness :
  ∃ pre post,
    unlines ["[youtube] Extracting URL"; "[download] Destination: /v/1.mp4";
             "[download] 100%"]
    = pre +:+ Re.DESTINATION +:+ "/v/1.mp4" +:+ post
    ∧ "/v/1.mp4" ≠ "" ∧ has_LF "/v/1.mp4" = false ∧ line_end post = true
    ∧ ∀ pre' t,
        unlines ["[youtube] Extracting URL"; "[download] Destination: /v/1.mp4";
                 "[download] 100%"]
        = pre' +:+ Re.DESTINATION +:+ t →
        (String.length pre' < String.length pre)%nat →
        line_end t = true.
Proof.
  apply (search_finds_first_announcement
           (unlines ["[youtube] Extracting URL";
                     "[download] Destination: /v/1.mp4"; "[download] 100%"])
           "/v/1.mp4").
  vm_compute. reflexivity.
Defined.

(** Property X7.  The temporary path of [strip_metadata] never resolves
    to the entry of the file itself, and never to the root, whatever the
    path looks like (trailing separators, dot components, relative
    paths). *)
Theorem temporary_file_is_another_entry (w : World) (file_path : string) :
  Os.resolve w (stripped_path file_path) ≠ Os.resolve w file_path
  ∧ Os.resolve w (stripped_path file_path) ≠ [].
Proof. apply resolve_stripped. Qed.

Section EndToEnd.

Variable spawn : World → list string → proc_result.

(** Property X17.  A download followed by a successful strip: when the
    fetch returns, its output announces a path, and ffmpeg exits with
    status 0 leaving its output at the temporary path (the announced path
    not being a directory and lying in an existing directory), then
    [download_youtube_media] returns, the announced path holds the output
    of ffmpeg, the temporary entry is deleted, and the last line on the
    console is the line of success.  That the announced path is not empty
    needs no assumption. *)
Theorem download_and_strip_success (url base : string) (audio_only : bool)
    (w w2 : World) (result stripped : CompletedProcess) (p c : string)
    (m : gmap (list string) node) :
  let w3 := add_log INFO (completed_message p) w2 in
  let ks := Os.resolve w2 (stripped_path p) in
  let kd := Os.resolve w2 p in
  fetch spawn url (output_directory_of base audio_only) audio_only w
  = (Ret result, w2) →
  Re.search (stdout result) = Some p →
  spawn w3 (strip_cmd p) = Exited stripped m →
  returncode stripped = 0 →
  m !! ks = Some (File c) →
  Os.lookup_node m (removelast kd) = Some Dir →
  Os.lookup_node m kd ≠ Some Dir →
  download_youtube_media spawn url base audio_only w
  = (Ret tt,
     add_console (success_message url)
       (add_log INFO (stripped_message p)
          (set_fs (<[kd := File c]> (delete ks m))
             (add_spawned (strip_cmd p) w3)))).
Proof.
  intros w3 ks kd Hf Hp Hs Hrc Hc Hd Hn.
  rewrite (download_after_fetch _ _ _ _ _ _ _ Hf), Hp. fold w3.
  assert (p ≠ "") as Hne.
  { pose proof (search_cases (stdout result)) as H. rewrite Hp in H.
    by destruct H as (? & ? & _ & ? & _). }
  by rewrite (strip_metadata_replaces spawn p c w3 stripped m Hs Hrc Hne Hc Hd Hn).
Qed.

End EndToEnd.

(** Property X17 on one URL served by [machine]. *)
Lemma download_and_strip_success_witness :
  let spawn := machine "" 0 true in
  let url := "https://x/1" in
  let p := video_file url in
  let c := "stripped media of https://x/1" in
  let w2 := (fetch spawn url (output_directory_of "/app/YouTube_downloads" false)
               false (home [])).2 in
  let w3 := add_log INFO (completed_message p) w2 in
  let ks := Os.resolve w2 (stripped_path p) in
  let kd := Os.resolve w2 p in
  let m := <[ks := File c]> (fs w2) in
  download_youtube_media spawn url "/app/YouTube_downloads" false (home [])
  = (Ret tt,
     add_console (success_message url)
       (add_log INFO (stripped_message p)
          (set_fs (<[kd := File c]> (delete ks m))
             (add_spawned (strip_cmd p) w3)))).
Proof.
  apply (download_and_strip_success (machine "" 0 true) "https://x/1"
           "/app/YouTube_downloads" false (home []) _
           (completed 0
              (unlines [ "[youtube] Extracting URL: https://x/1";
                         "[download] Destination: " +:+ video_file "https://x/1";
                         "[download] 100% of 1.00MiB" ]) "")
           (completed 0 "" ""));
    vm_compute; (reflexivity || discriminate).
Defined.

Section ReportExtras.

Variable spawn : World → list string → proc_result.
Variable script_directory : string.

Lemma strip_metadata_console (file_path : string) (w : World) :
  console (strip_metadata spawn file_path w).2 = console w.
Proof.
  destruct (spawn w (strip_cmd file_path)) as [|result m] eqn:E.
  - by rewrite strip_metadata_not_found.
  - destruct (decide (returncode result = 0)) as [Hrc|Hrc].
    + rewrite (strip_metadata_exit_zero _ _ _ _ _ E Hrc). unfold replace_step.
      pose proof (replace_keeps (stripped_path file_path) file_path
                    (set_fs m (add_spawned (strip_cmd file_path) w)))
        as (_ & _ & Hco & _).
      destruct (Os.replace _ _ _) as [[[]|e] w']; simpl in *; by rewrite Hco.
    + rewrite (strip_metadata_exit_nonzero _ _ _ _ _ E Hrc). unfold replace_step.
      destruct (Os.path_exists _ _) as [[[]|] ?] eqn:Hex; try done.
      pose proof (replace_keeps (stripped_path file_path) file_path
                    (add_log WARNING (warning_message result)
                       (set_fs m (add_spawned (strip_cmd file_path) w))))
        as (_ & _ & Hco & _).
      destruct (Os.replace _ _ _) as [[[]|e] w']; simpl in *; by rewrite Hco.
Qed.

Lemma download_youtube_media_console (url base : string) (audio_only : bool)
    (w w' : World) :
  download_youtube_media spawn url base audio_only w = (Ret tt, w') →
  ∃ line, console w' = console w ++ [line] ∧ report_of url line.
Proof.
  unfold download_youtube_media, try_except, bind.
  rewrite create_output_directory_eq.
  destruct (Os.makedirs _ w) as [[[]|e1] w1] eqn:Hdir; [|simpl; discriminate].
  apply makedirs_world in Hdir. apply (f_equal console) in Hdir. simpl in Hdir.
  simpl. unfold subprocess_run.
  destruct (spawn _ _) as [|result m]; [simpl; discriminate|].
  destruct (Z.eqb_spec (returncode result) 0) as [Hrc|Hrc]; simpl.
  - destruct (Re.search (stdout result)) as [path|]; simpl.
    + match goal with
      | |- context [strip_metadata spawn path ?w0] =>
          pose proof (strip_metadata_console path w0) as Hco;
          destruct (strip_metadata_returns spawn path w0) as (w3 & Hw3)
      end.
      rewrite Hw3 in Hco |- *. simpl in Hco |- *. intros [= <-].
      exists (success_message url). simpl. rewrite Hco, Hdir.
      split; [done|by left].
    + intros [= <-]. exists (not_located_message url). simpl. rewrite Hdir.
      split; [done|right; by left].
  - intros [= <-]. exists (download_failed_message url). simpl. rewrite Hdir.
    split; [done|right; by right].
Qed.

(** Property X14.  When the loop over the URLs returns, the console has
    exactly one more line per URL, in the order of the list: for each URL
    the line of success, the line that the final file was not located, or
    the line of the failed download. *)
Theorem download_all_reports (urls : list string) (base : string)
    (audio_only : bool) (w w' : World) :
  download_all spawn urls base audio_only w = (Ret tt, w') →
  ∃ lines, console w' = console w ++ lines ∧ Forall2 report_of urls lines.
Proof.
  revert w. induction urls as [|url urls IH]; intros w.
  - intros [= <-]. exists []. by rewrite List.app_nil_r.
  - destruct (download_youtube_media spawn url base audio_only w)
      as [[[]|e] w1] eqn:E.
    2:{ unfold download_all. simpl. unfold bind. rewrite E. discriminate. }
    rewrite (download_all_cons _ _ _ _ _ _ _ E). intros H.
    apply IH in H as (lines & H1 & H2).
    apply download_youtube_media_console in E as (line & E & Hr).
    exists (line :: lines). rewrite H1, E, <-List.app_assoc.
    split; [done|by constructor].
Qed.

(** Property X2.  With a working media processor, an answer to the first
    prompt that neither starts with http nor ends in .txt (an empty line
    and a closed input included) ends the script with status 1 after the
    line Error: Unknown input format.; the second prompt is not shown and
    nothing but the version query has been started. *)
Theorem main_unknown_input (w : World) (result : CompletedProcess)
    (m : gmap (list string) node) :
  spawn w version_cmd = Exited result m →
  returncode result = 0 →
  Py.startswith "http" (user_input_of w) = false →
  Py.endswith ".txt" (Py.lower (user_input_of w)) = false →
  main spawn script_directory w
  = (Raise (SystemExit 1), add_console unknown_format_message (prompted m w)).
Proof.
  intros Hs Hrc H1 H2.
  rewrite main_unfold, (check_ffmpeg_exited _ _ _ _ Hs), Hrc.
  change (0 =? 0) with true. cbv beta iota.
  rewrite main_from_prompt_unfold. cbv zeta.
  change (user_input_of (set_fs m (add_spawned version_cmd w)))
    with (user_input_of w).
  change (stdin (set_fs m (add_spawned version_cmd w))) with (stdin w).
  fold (prompted m w).
  by rewrite process_input_unknown.
Qed.

End ReportExtras.

(** Property X14 on three URLs of which the second fails. *)
Lemma download_all_reports_witness :
  let w := home [] in
  let urls := ["https://x/1"; "https://x/2"; "https://x/3"] in
  let w' := (download_all (machine "https://x/2" 0 true) urls
               "/app/YouTube_downloads" false w).2 in
  ∃ lines, console w' = console w ++ lines ∧ Forall2 report_of urls lines.
Proof.
  apply (download_all_reports (machine "https://x/2" 0 true)
           ["https://x/1"; "https://x/2"; "https://x/3"]
           "/app/YouTube_downloads" false (home [])).
  vm_compute. reflexivity.
Defined.

(** Property X2 on a closed standard input. *)
Lemma main_unknown_input_witness :
  main (machine "" 0 true) "/app" (home [])
  = (Raise (SystemExit 1),
     add_console unknown_format_message (prompted (fs (home [])) (home []))).
Proof.
  apply (main_unknown_input (machine "" 0 true) "/app" (home [])
           (completed 0 "ffmpeg version 6.0" ""));
    vm_compute; reflexivity.
Defined.
